(** * BigQuery datasource for Grafana: the query pipeline of [datasource.ts]

    A shallow embedding of [BigQueryDatasource] (src/datasource.ts): variable
    interpolation, the query batch, the retrying transport wrappers and the
    annotation query.  Promises are modelled by their outcome, the backend by
    a function of the requests issued so far, and every call that leaves the
    class (query model, backend, console) is recorded in a chronological
    trace, so that statements about call order and call counts can be read
    off the trace. *)

From stdpp Require Import base option list strings gmap.
From Stdlib Require Import Ascii ZArith DecimalString.


(** ** JavaScript values *)

(** The values a template variable can carry.  [number] is the type of
    JavaScript numbers; the datasource never computes with them. *)
#[warnings="-register-all"]
Inductive Value (number : Type) : Type :=
| VUndefined
| VNull
| VString (s : string)
| VNumber (n : number)
| VArray (items : list (Value number)).

Arguments VUndefined {number}.
Arguments VNull {number}.
Arguments VString {number} s.
Arguments VNumber {number} n.
Arguments VArray {number} items.

(** The results of JavaScript's [typeof] that the code distinguishes. *)
Inductive JSType := TyUndefined | TyObject | TyString | TyNumber.

Definition typeof {number} (v : Value number) : JSType :=
  match v with
  | VUndefined => TyUndefined
  | VNull => TyObject
  | VString _ => TyString
  | VNumber _ => TyNumber
  | VArray _ => TyObject
  end.

(** [String(n)] for a JavaScript number. *)
Class JSNumber (number : Type) := number_to_string : number → string.

(** Integers printed in decimal, used for concrete runs. *)
Definition Z_to_string (z : Z) : string := NilZero.string_of_int (Z.to_int z).

#[global] Instance Z_JSNumber : JSNumber Z := Z_to_string.

(** [String(v)]: how a value becomes text when it is spliced into a string. *)
Fixpoint js_String {number} `{JSNumber number} (v : Value number) : string :=
  match v with
  | VUndefined => "undefined"
  | VNull => "null"
  | VString s => s
  | VNumber n => number_to_string n
  | VArray items =>
      String.concat ","
        (map (λ x, match x with
                   | VUndefined | VNull => ""
                   | _ => js_String x
                   end) items)
  end.

(** lodash's [_.map(collection, f)] on the collections a variable value can
    be once strings and numbers are excluded: an array is mapped element by
    element, [null] and [undefined] are empty collections. *)
Definition lodash_map {number B} (f : Value number → B) (collection : Value number)
  : list B :=
  match collection with
  | VArray items => map f items
  | _ => []
  end.

(** [Array.prototype.join(sep)] on an array of strings. *)
Definition join (sep : string) (parts : list string) : string :=
  String.concat sep parts.

(** ** Data model *)

(** A dashboard variable: its current value and its multiplicity flags. *)
Record TemplateVariable (number : Type) := mkVariable {
  var_name : string;
  var_value : Value number;
  multi : bool;
  includeAll : bool;
}.

Arguments mkVariable {number}.
Arguments var_name {number}.
Arguments var_value {number}.
Arguments multi {number}.
Arguments includeAll {number}.

Abbreviation ScopedVars number := (gmap string (TemplateVariable number)).

(** The callback type handed to the templating service. *)
Abbreviation Formatter number :=
  (Value number → TemplateVariable number → Value number).

(** A panel query.  [hide] may be absent. *)
Record Target := mkTarget {
  refId : string;
  rawSql : string;
  format : string;
  hide : option bool;
}.

(** The options of [query]. *)
Record QueryOptions (number : Type) := mkQueryOptions {
  targets : list Target;
  intervalMs : number;
  maxDataPoints : number;
  scopedVars : ScopedVars number;
  range_from : number;
  range_to : number;
}.

Arguments mkQueryOptions {number}.
Arguments targets {number}.
Arguments intervalMs {number}.
Arguments maxDataPoints {number}.
Arguments scopedVars {number}.
Arguments range_from {number}.
Arguments range_to {number}.

(** The annotation definition; [rawQuery] may be absent. *)
Record AnnotationDef := mkAnnotationDef {
  annotation_name : string;
  rawQuery : option string;
}.

(** The options of [annotationQuery]. *)
Record AnnotationOptions (number : Type) := mkAnnotationOptions {
  annotation : AnnotationDef;
  a_scopedVars : ScopedVars number;
  a_range_from : number;
  a_range_to : number;
}.

Arguments mkAnnotationOptions {number}.
Arguments annotation {number}.
Arguments a_scopedVars {number}.
Arguments a_range_from {number}.
Arguments a_range_to {number}.

(** The per-target object built by [query] and the single query object built
    by [annotationQuery] (which has no [intervalMs] and [maxDataPoints]). *)
Record Payload (number : Type) := mkPayload {
  p_refId : string;
  p_intervalMs : option number;
  p_maxDataPoints : option number;
  p_datasourceId : number;
  p_rawSql : string;
  p_format : string;
}.

Arguments mkPayload {number}.
Arguments p_refId {number}.
Arguments p_intervalMs {number}.
Arguments p_maxDataPoints {number}.
Arguments p_datasourceId {number}.
Arguments p_rawSql {number}.
Arguments p_format {number}.

Inductive Method := GET | POST.

(** The [data] field of a backend request. *)
Inductive RequestData (number : Type) : Type :=
| NoData
| SqlData (query : string) (useLegacySql : bool)
| TsdbData (from to : string) (queries : list (Payload number)).

Arguments NoData {number}.
Arguments SqlData {number}.
Arguments TsdbData {number}.

Record Request (number : Type) := mkRequest {
  req_url : string;
  req_method : Method;
  req_data : RequestData number;
}.

Arguments mkRequest {number}.
Arguments req_url {number}.
Arguments req_method {number}.
Arguments req_data {number}.

(** What a promise is rejected with: an object carrying a message, or an
    error value of a collaborator, which the datasource never inspects. *)
Inductive Rejection (Err : Type) : Type :=
| Message (message : string)
| Failure (e : Err).

Arguments Message {Err}.
Arguments Failure {Err}.

(** A settled promise. *)
Inductive Outcome (Err A : Type) : Type :=
| Resolved (a : A)
| Rejected (r : Rejection Err).

Arguments Resolved {Err A}.
Arguments Rejected {Err A}.

(** The value [query] resolves with. *)
Record QueryResult (Series : Type) := mkQueryResult { data : list Series }.

Arguments mkQueryResult {Series}.
Arguments data {Series}.

(** ** Collaborators

    [datasource.ts] imports the query model ([bigquery_query.ts]) and the
    response parser ([response_parser.ts]) and is handed Grafana's backend and
    templating services.  Their code is not part of this file; each is an
    interface here. *)

(** [queryModel.quoteLiteral(value)], the one method of the query model that
    [interpolateVariable] calls; it reads no field of the model. *)
Class Quoting (number : Type) := quoteLiteral : Value number → string.

(** The other methods of the query model that the datasource calls: the
    constructor, [render(interpolate)] and [expend_macros(options)].  [QM] is
    the state of one model object; [render] may update it, and
    [expend_macros] may fail. *)
Class BigQueryQuery (number Err QM : Type) := {
  newBigQueryQuery : Target → ScopedVars number → QM;
  render : QM → Formatter number → string * QM;
  expend_macros : QM → QueryOptions number → Outcome Err string;
}.

(** The methods of the response parser that the datasource calls. *)
Class ResponseParser (number Err Response Series Annotation : Type) := {
  parseDataQuery : Response → Outcome Err (QueryResult Series);
  transformAnnotationResponse :
    AnnotationOptions number → Response → Outcome Err (list Annotation);
}.

(** Grafana's services.  The backend answers a request knowing the requests
    issued before it, so that it may fail once and succeed later. *)
Class Host (number Err Response : Type) := {
  datasourceRequest_outcome :
    list (Request number) → Request number → Outcome Err Response;
  templateSrv_replace :
    string → ScopedVars number → Formatter number → string;
}.

(** ** Trace and effects *)

(** Calls that leave the datasource, in the order they happen. *)
Inductive Event (number Err QM : Type) : Type :=
| EvRender (qm : QM)
| EvExpendMacros (qm : QM)
| EvRequest (r : Request number)
| EvConsoleLog (error : Rejection Err).

Arguments EvRender {number Err QM}.
Arguments EvExpendMacros {number Err QM}.
Arguments EvRequest {number Err QM}.
Arguments EvConsoleLog {number Err QM}.

Abbreviation Trace number Err QM := (list (Event number Err QM)).

(** The backend requests of a trace, oldest first. *)
Definition requests {number Err QM} (w : Trace number Err QM)
  : list (Request number) :=
  omap (λ e, match e with EvRequest r => Some r | _ => None end) w.

(** The datasource object: the fields the modelled methods read or write. *)
Record Datasource (number QM : Type) := mkDatasource {
  id : number;
  url : string;
  baseUrl : string;
  projectName : string;
  queryModel : QM;
}.

Arguments mkDatasource {number QM}.
Arguments id {number QM}.
Arguments url {number QM}.
Arguments baseUrl {number QM}.
Arguments projectName {number QM}.
Arguments queryModel {number QM}.

Definition set_queryModel {number QM} (qm : QM) (this : Datasource number QM)
  : Datasource number QM :=
  {| id := id this; url := url this; baseUrl := baseUrl this;
     projectName := projectName this; queryModel := qm |}.

Section Model.
Context {number Err QM Response Series Annotation : Type}.
Context `{!JSNumber number}.
Context `{!Quoting number}.
Context `{!BigQueryQuery number Err QM}.
Context `{!ResponseParser number Err Response Series Annotation}.
Context `{!Host number Err Response}.

(** A computation that extends the trace. *)
Definition M (A : Type) : Type := Trace number Err QM → A * Trace number Err QM.

Definition ret {A} (a : A) : M A := λ w, (a, w).

Definition bind {A B} (m : M A) (k : A → M B) : M B :=
  λ w, let '(a, w') := m w in k a w'.

Definition emit (e : Event number Err QM) : M unit := λ w, (tt, w ++ [e]).

(** [promise.then(f)]. *)
Definition then_ {A B} (p : M (Outcome Err A)) (f : A → M (Outcome Err B))
  : M (Outcome Err B) :=
  bind p (λ o, match o with
               | Resolved a => f a
               | Rejected r => ret (Rejected r)
               end).

(** [promise.catch(f)]. *)
Definition catch_ {A} (p : M (Outcome Err A))
    (f : Rejection Err → M (Outcome Err A)) : M (Outcome Err A) :=
  bind p (λ o, match o with
               | Resolved a => ret (Resolved a)
               | Rejected r => f r
               end).

(** [this.backendSrv.datasourceRequest(r)]. *)
Definition datasourceRequest (r : Request number) : M (Outcome Err Response) :=
  λ w, (datasourceRequest_outcome (requests w) r, w ++ [EvRequest r]).

(** ** The methods of [BigQueryDatasource] *)

(** [doRequest(url, maxRetries = 1)].  The retry budget is a count; every
    caller in the file leaves it at its default. *)
Fixpoint doRequest (this : Datasource number QM) (url_ : string)
    (maxRetries : nat) : M (Outcome Err Response) :=
  catch_
    (datasourceRequest
       {| req_url := url this +:+ url_; req_method := GET; req_data := NoData |})
    (λ error,
       match maxRetries with
       | S retries => doRequest this url_ retries
       | O => bind (emit (EvConsoleLog error)) (λ _, ret (Rejected error))
       end).

(** [doQueryRequest(url, query, maxRetries = 1)]. *)
Fixpoint doQueryRequest (this : Datasource number QM) (url_ query : string)
    (maxRetries : nat) : M (Outcome Err Response) :=
  catch_
    (datasourceRequest
       {| req_url := url this +:+ url_; req_method := POST;
          req_data := SqlData query false |})
    (λ error,
       match maxRetries with
       | S retries => doQueryRequest this url_ query retries
       | O => ret (Rejected error)
       end).

(** The default value of the [maxRetries] parameter. *)
Definition default_maxRetries : nat := 1.

(** [interpolateVariable(value, variable)]. *)
Definition interpolateVariable (value : Value number)
    (variable : TemplateVariable number) : Value number :=
  match typeof value with
  | TyString =>
      if multi variable || includeAll variable
      then VString (quoteLiteral value)
      else value
  | TyNumber => value
  | _ => VString (join "," (lodash_map quoteLiteral value))
  end.

(** The body of the [map] callback of [query] for one target: a fresh query
    model is built and stored in [this.queryModel], and the target's SQL is
    rendered with [interpolateVariable]. *)
Definition build_query (options : QueryOptions number)
    (this : Datasource number QM) (target : Target)
  : M (Datasource number QM * Payload number) :=
  let qm := newBigQueryQuery target (scopedVars options) in
  bind (emit (EvRender qm)) (λ _,
  let '(sql, qm') := render qm interpolateVariable in
  ret (set_queryModel qm' this,
       {| p_refId := refId target;
          p_intervalMs := Some (intervalMs options);
          p_maxDataPoints := Some (maxDataPoints options);
          p_datasourceId := id this;
          p_rawSql := sql;
          p_format := format target |})).

(** [Array.prototype.map] with the callback above, left to right. *)
Fixpoint build_queries (options : QueryOptions number)
    (this : Datasource number QM) (ts : list Target)
  : M (Datasource number QM * list (Payload number)) :=
  match ts with
  | [] => ret (this, [])
  | target :: rest =>
      bind (build_query options this target) (λ '(this1, payload),
      bind (build_queries options this1 rest) (λ '(this2, payloads),
      ret (this2, payload :: payloads)))
  end.

(** The targets kept by [_.filter(options.targets, t => t.hide !== true)]. *)
Definition visible_targets (options : QueryOptions number) : list Target :=
  filter (λ target, hide target ≠ Some true) (targets options).

(** [query(options)]: the datasource after the call and the settled result. *)
Definition query (this : Datasource number QM) (options : QueryOptions number)
  : M (Datasource number QM * Outcome Err (QueryResult Series)) :=
  bind (build_queries options this (visible_targets options))
    (λ '(this', queries),
  if decide (length queries = 0)
  then ret (this', Resolved {| data := [] |})
  else
    bind (emit (EvExpendMacros (queryModel this'))) (λ _,
    match expend_macros (queryModel this') options with
    | Rejected r => ret (this', Rejected r)
    | Resolved q =>
        let path := "v2/projects/" +:+ projectName this' +:+ "/queries" in
        bind (then_ (doQueryRequest this' (baseUrl this' +:+ path) q
                       default_maxRetries)
                (λ response, ret (parseDataQuery response)))
          (λ result, ret (this', result))
    end)).

(** [annotationQuery(options)]. *)
Definition annotationQuery (this : Datasource number QM)
    (options : AnnotationOptions number)
  : M (Outcome Err (list Annotation)) :=
  match rawQuery (annotation options) with
  | None | Some "" =>
      ret (Rejected (Message "Query missing in annotation definition"))
  | Some sql =>
      let query_ :=
        {| p_refId := annotation_name (annotation options);
           p_intervalMs := None;
           p_maxDataPoints := None;
           p_datasourceId := id this;
           p_rawSql := templateSrv_replace sql (a_scopedVars options)
                         interpolateVariable;
           p_format := "table" |} in
      then_
        (datasourceRequest
           {| req_url := "/api/tsdb/query"; req_method := POST;
              req_data :=
                TsdbData (number_to_string (a_range_from options))
                         (number_to_string (a_range_to options))
                         [query_] |})
        (λ response, ret (transformAnnotationResponse options response))
  end.

(** ** Notions used in the statements *)

(** The request [doRequest] issues for a path. *)
Definition get_request (this : Datasource number QM) (url_ : string)
  : Request number :=
  {| req_url := url this +:+ url_; req_method := GET; req_data := NoData |}.

(** The request [doQueryRequest] issues for a path and a SQL text. *)
Definition sql_request (this : Datasource number QM) (url_ query_ : string)
  : Request number :=
  {| req_url := url this +:+ url_; req_method := POST;
     req_data := SqlData query_ false |}.

(** The path [query] posts to. *)
Definition queries_url (this : Datasource number QM) : string :=
  baseUrl this +:+ ("v2/projects/" +:+ projectName this +:+ "/queries").

(** The model [query] builds for a target, and what rendering it gives: the
    interpolated SQL and the model after the call. *)
Definition model_of (options : QueryOptions number) (target : Target) : QM :=
  newBigQueryQuery target (scopedVars options).

Definition rendered (options : QueryOptions number) (target : Target)
  : string * QM :=
  render (model_of options target) interpolateVariable.

(** The payload [query] builds for a target. *)
Definition payload_of (options : QueryOptions number)
    (this : Datasource number QM) (target : Target) : Payload number :=
  {| p_refId := refId target;
     p_intervalMs := Some (intervalMs options);
     p_maxDataPoints := Some (maxDataPoints options);
     p_datasourceId := id this;
     p_rawSql := (rendered options target).1;
     p_format := format target |}.

(** The order the specification asks for, on a trace: every macro expansion
    happens before every rendering (interpolation). *)
Definition expansion_precedes_interpolation (w : Trace number Err QM) : Prop :=
  ∀ i j qm qm',
    w !! i = Some (EvRender qm) →
    w !! j = Some (EvExpendMacros qm') →
    j < i.

(** What the absence of retries would mean for a call [run] that sends the
    request [r]: when the backend fails the request, that failure is the
    result and the request has been sent once. *)
Definition passes_failure_through (run : M (Outcome Err Response))
    (r : Request number) (w : Trace number Err QM) : Prop :=
  ∀ e, datasourceRequest_outcome (requests w) r = Rejected e →
       (run w).1 = Rejected e ∧ requests (run w).2 = requests w ++ [r].

End Model.

Definition is_rejected {Err A} (o : Outcome Err A) : Prop :=
  match o with
  | Rejected _ => True
  | Resolved _ => False
  end.

(** The elements of a variable value: those of an array, the value itself
    for a string or a number, none for [null] and [undefined]. *)
Definition elements {number} (value : Value number) : list (Value number) :=
  match value with
  | VArray items => items
  | VString _ | VNumber _ => [value]
  | VNull | VUndefined => []
  end.

Definition is_array {number} (value : Value number) : bool :=
  match value with
  | VArray _ => true
  | _ => false
  end.

(** ** The absent parts, after the specification *)

(** Modelled from the spec: the escaping step of [quoteLiteral] (section
    4.1), here by doubling every embedded single quote. *)
Fixpoint escape_quotes (s : string) : string :=
  match s with
  | EmptyString => EmptyString
  | String c rest =>
      if Ascii.eqb c "'"%char
      then String "'"%char (String "'"%char (escape_quotes rest))
      else String c (escape_quotes rest)
  end.

(** Modelled from the spec: [quoteLiteral] of [bigquery_query.ts], which is
    not among the sources.  Section 4.1: a string is wrapped in single quotes
    with embedded single quotes escaped (doubled here), a number is emitted
    as it is, the elements of a list are quoted one by one and joined with a
    comma, and null or undefined give the SQL [NULL] literal. *)
Fixpoint spec_quoteLiteral {number} `{JSNumber number} (v : Value number)
  : string :=
  match v with
  | VString s => "'" +:+ escape_quotes s +:+ "'"
  | VNumber n => number_to_string n
  | VArray items => join "," (map spec_quoteLiteral items)
  | VNull | VUndefined => "NULL"
  end.

(** Modelled from the spec: the states of the scanner of [spec_replace]
    (section 4.2), plain text or the part of a token read so far. *)
Inductive Scan :=
| InText
| SawDollar
| InBrace (name : string)
| SawBracket
| InBracket (name : string)
| InBracketClose (name : string).

(** Modelled from the spec: a character read in plain text by the scanner of
    [spec_replace], what is emitted for it and the next state. *)
Definition enter (c : ascii) : string * Scan :=
  if Ascii.eqb c "$"%char then (EmptyString, SawDollar)
  else if Ascii.eqb c "["%char then (EmptyString, SawBracket)
  else (String c EmptyString, InText).

(** Modelled from the spec: the text left when the input of [spec_replace]
    ends inside a token, which is then no token and stays as it is. *)
Definition flush (st : Scan) : string :=
  match st with
  | InText => ""
  | SawDollar => "$"
  | InBrace name => "${" +:+ name
  | SawBracket => "["
  | InBracket name => "[[" +:+ name
  | InBracketClose name => "[[" +:+ name +:+ "]"
  end.

(** A character appended to a text. *)
Definition snoc (s : string) (c : ascii) : string := s +:+ String c EmptyString.

Section Replace.
Context {number : Type} `{!JSNumber number}.
Variable vars : ScopedVars number.
Variable formatter : Formatter number.

(** Modelled from the spec: the text a token is replaced with (section 4.2),
    the formatted value of the variable, or the token itself when the
    variable is not in the map. *)
Definition substitute (name token : string) : string :=
  match vars !! name with
  | Some variable => js_String (formatter (var_value variable) variable)
  | None => token
  end.

(** Modelled from the spec: the scanner of [spec_replace], which copies plain
    text and replaces every complete [${name}] or [[name]] token. *)
Fixpoint scan (st : Scan) (s : string) : string :=
  match s with
  | EmptyString => flush st
  | String c rest =>
      match st with
      | InText => let '(out, st') := enter c in out +:+ scan st' rest
      | SawDollar =>
          if Ascii.eqb c "{"%char then scan (InBrace "") rest
          else let '(out, st') := enter c in "$" +:+ out +:+ scan st' rest
      | InBrace name =>
          if Ascii.eqb c "}"%char
          then substitute name ("${" +:+ name +:+ "}") +:+ scan InText rest
          else scan (InBrace (snoc name c)) rest
      | SawBracket =>
          if Ascii.eqb c "["%char then scan (InBracket "") rest
          else let '(out, st') := enter c in "[" +:+ out +:+ scan st' rest
      | InBracket name =>
          if Ascii.eqb c "]"%char then scan (InBracketClose name) rest
          else scan (InBracket (snoc name c)) rest
      | InBracketClose name =>
          if Ascii.eqb c "]"%char
          then substitute name ("[[" +:+ name +:+ "]]") +:+ scan InText rest
          else scan (InBracket (snoc (snoc name "]"%char) c)) rest
      end
  end.

End Replace.

(** Modelled from the spec: [templateSrv.replace(sql, scopedVars, format)] of
    the host templating service, which is not among the sources.  Section
    4.2: every token [${name}] or [[name]] whose variable is in the map is
    replaced with the formatted value of the variable; a token whose variable
    is not in the map is left untouched. *)
Definition spec_replace {number} `{!JSNumber number} (sql : string)
    (vars : ScopedVars number) (formatter : Formatter number) : string :=
  scan vars formatter InText sql.

(** The quoting of section 4.1 as the query model's [quoteLiteral]. *)
Definition spec_Quoting {number} `{!JSNumber number} : Quoting number :=
  spec_quoteLiteral.

(** ** A runnable instance

    Integers for numbers, text for responses and errors; a query model that
    remembers its target and whether it was rendered, renders by token
    replacement and expands SQL that contains no macro call to itself; a
    backend that answers from a script, one entry per request. *)

Record SampleModel := mkSampleModel {
  sm_target : Target;
  sm_vars : ScopedVars Z;
  sm_rendered : bool;
}.

Definition sample_BigQueryQuery : BigQueryQuery Z string SampleModel := {|
  newBigQueryQuery target vars :=
    {| sm_target := target; sm_vars := vars; sm_rendered := false |};
  render qm formatter :=
    (spec_replace (rawSql (sm_target qm)) (sm_vars qm) formatter,
     {| sm_target := sm_target qm; sm_vars := sm_vars qm;
        sm_rendered := true |});
  expend_macros qm options := Resolved (rawSql (sm_target qm));
|}.

Definition sample_ResponseParser : ResponseParser Z string string string string := {|
  parseDataQuery response := Resolved {| data := [response] |};
  transformAnnotationResponse options response := Resolved [response];
|}.

(** A backend whose [k]-th answer is the [k]-th entry of [script]; it times
    out when the script is exhausted. *)
Definition scripted_Host (script : list (Outcome string string))
  : Host Z string string := {|
  datasourceRequest_outcome history request :=
    default (Rejected (Failure "timeout")) (script !! length history);
  templateSrv_replace := spec_replace;
|}.

Definition sample_datasource : Datasource Z SampleModel := {|
  id := 7%Z;
  url := "http://host";
  baseUrl := "/bigquery/";
  projectName := "proj";
  queryModel :=
    {| sm_target := mkTarget "" "" "" None; sm_vars := ∅; sm_rendered := false |};
|}.

Definition target_A : Target := mkTarget "A" "SELECT a FROM t" "table" None.
Definition target_B : Target := mkTarget "B" "SELECT b FROM t" "table" (Some false).
Definition target_H : Target := mkTarget "H" "SELECT h FROM t" "table" (Some true).

Definition sample_options (ts : list Target) : QueryOptions Z :=
  mkQueryOptions ts 1000%Z 500%Z ∅ 0%Z 3600000%Z.

Definition var_v : TemplateVariable Z :=
  mkVariable "v" (VArray [VNumber 1%Z; VNumber 2%Z; VNumber 3%Z]) true false.

Definition var_abc : TemplateVariable Z :=
  mkVariable "v" (VString "abc") false false.

(** [query] and [annotationQuery] of the sample datasource, from an empty
    trace, against a scripted backend. *)
Definition run_query (script : list (Outcome string string))
    (options : QueryOptions Z) :=
  query (Quoting0 := spec_Quoting) (BigQueryQuery0 := sample_BigQueryQuery)
    (ResponseParser0 := sample_ResponseParser) (Host0 := scripted_Host script)
    sample_datasource options [].

Definition run_build_queries (options : QueryOptions Z) :=
  build_queries (Err := string) (Quoting0 := spec_Quoting)
    (BigQueryQuery0 := sample_BigQueryQuery)
    options sample_datasource (visible_targets options) [].

Definition run_annotationQuery (script : list (Outcome string string))
    (options : AnnotationOptions Z) :=
  annotationQuery (QM := SampleModel) (Quoting0 := spec_Quoting)
    (ResponseParser0 := sample_ResponseParser) (Host0 := scripted_Host script)
    sample_datasource options [].

(** * The remaining methods of [BigQueryDatasource] *)

(** ** Listings and metric-find *)

(** The listing methods of the response parser; [parseTabelFields] also takes
    the caller's filter. *)
Class ListingParser (Err Response Filter Item : Type) := {
  parseProjects : Response → Outcome Err (list Item);
  parseDatasets : Response → Outcome Err (list Item);
  parseTabels : Response → Outcome Err (list Item);
  parseTabelFields : Response → Filter → Outcome Err (list Item);
}.

(** [responseParser.parseMetricFindQueryResult(refId, data)]. *)
Class MetricFindParser (Err Response Found : Type) :=
  parseMetricFindQueryResult : string → Response → Outcome Err (list Found).

(** [timeSrv.timeRange()]: the bounds of the dashboard's time range. *)
Class TimeSrv (number : Type) := timeRange : number * number.

(** The second argument of [metricFindQuery]; it, its [variable] and the
    variable's [name] may each be absent. *)
Record MetricFindVariable := mkMetricFindVariable {
  mfv_name : option string;
}.

Record MetricFindOptions := mkMetricFindOptions {
  mf_variable : option MetricFindVariable;
}.

Section Listings.
Context {number Err QM Response Filter Item Found : Type}.
Context `{!JSNumber number}.
Context `{!Quoting number}.
Context `{!Host number Err Response}.
Context `{!ListingParser Err Response Filter Item}.
Context `{!MetricFindParser Err Response Found}.
Context `{!TimeSrv number}.

(** The paths of the listing methods. *)
Definition projects_path : string := "v2/projects".

Definition datasets_path (projectName_ : string) : string :=
  "v2/projects/" +:+ projectName_ +:+ "/datasets".

Definition tables_path (projectName_ datasetName : string) : string :=
  "v2/projects/" +:+ projectName_ +:+ "/datasets/" +:+ datasetName +:+ "/tables".

Definition table_path (projectName_ datasetName tableName : string) : string :=
  "v2/projects/" +:+ projectName_ +:+ "/datasets/" +:+ datasetName
  +:+ "/tables/" +:+ tableName.

(** [getProjects()]. *)
Definition getProjects (this : Datasource number QM)
  : M (QM := QM) (Outcome Err (list Item)) :=
  then_ (doRequest this (baseUrl this +:+ projects_path) default_maxRetries)
    (λ response, ret (parseProjects response)).

(** [getDatasets(projectName)]. *)
Definition getDatasets (this : Datasource number QM) (projectName_ : string)
  : M (QM := QM) (Outcome Err (list Item)) :=
  then_ (doRequest this (baseUrl this +:+ datasets_path projectName_)
           default_maxRetries)
    (λ response, ret (parseDatasets response)).

(** [getTables(projectName, datasetName)]. *)
Definition getTables (this : Datasource number QM)
    (projectName_ datasetName : string)
  : M (QM := QM) (Outcome Err (list Item)) :=
  then_ (doRequest this (baseUrl this +:+ tables_path projectName_ datasetName)
           default_maxRetries)
    (λ response, ret (parseTabels response)).

(** [getTableFields(projectName, datasetName, tableName, filter)]. *)
Definition getTableFields (this : Datasource number QM)
    (projectName_ datasetName tableName : string) (filter_ : Filter)
  : M (QM := QM) (Outcome Err (list Item)) :=
  then_ (doRequest this
           (baseUrl this +:+ table_path projectName_ datasetName tableName)
           default_maxRetries)
    (λ response, ret (parseTabelFields response filter_)).

(** The [refId] chosen by [metricFindQuery]: the variable's name when the
    options, the variable and a non-empty name are all there, [tempvar]
    otherwise. *)
Definition metricFind_refId (optionalOptions : option MetricFindOptions)
  : string :=
  match optionalOptions with
  | Some o =>
      match mf_variable o with
      | Some v =>
          match mfv_name v with
          | None | Some "" => "tempvar"
          | Some n => n
          end
      | None => "tempvar"
      end
  | None => "tempvar"
  end.

(** The query object of [metricFindQuery]. *)
Definition metricFind_payload (this : Datasource number QM) (query_ : string)
    (optionalOptions : option MetricFindOptions) : Payload number :=
  {| p_refId := metricFind_refId optionalOptions;
     p_intervalMs := None;
     p_maxDataPoints := None;
     p_datasourceId := id this;
     p_rawSql := templateSrv_replace query_ ∅ interpolateVariable;
     p_format := "table" |}.

(** [metricFindQuery(query, optionalOptions)]. *)
Definition metricFindQuery (this : Datasource number QM) (query_ : string)
    (optionalOptions : option MetricFindOptions)
  : M (QM := QM) (Outcome Err (list Found)) :=
  let refId_ := metricFind_refId optionalOptions in
  let interpolatedQuery := metricFind_payload this query_ optionalOptions in
  let range := timeRange in
  then_
    (datasourceRequest
       {| req_url := "/api/tsdb/query"; req_method := POST;
          req_data :=
            TsdbData (number_to_string range.1) (number_to_string range.2)
              [interpolatedQuery] |})
    (λ response, ret (parseMetricFindQueryResult refId_ response)).

(** The request the non-failing branch of [annotationQuery] sends for the
    SQL text [sql]. *)
Definition annotation_request (this : Datasource number QM)
    (options : AnnotationOptions number) (sql : string) : Request number :=
  {| req_url := "/api/tsdb/query"; req_method := POST;
     req_data :=
       TsdbData (number_to_string (a_range_from options))
                (number_to_string (a_range_to options))
                [{| p_refId := annotation_name (annotation options);
                    p_intervalMs := None;
                    p_maxDataPoints := None;
                    p_datasourceId := id this;
                    p_rawSql := templateSrv_replace sql (a_scopedVars options)
                                  interpolateVariable;
                    p_format := "table" |}] |}.

(** The request [metricFindQuery] sends. *)
Definition metricFind_request (this : Datasource number QM) (query_ : string)
    (optionalOptions : option MetricFindOptions) : Request number :=
  {| req_url := "/api/tsdb/query"; req_method := POST;
     req_data :=
       TsdbData (number_to_string timeRange.1) (number_to_string timeRange.2)
         [metricFind_payload this query_ optionalOptions] |}.

End Listings.

(** The errors written to the console in a trace, oldest first. *)
Definition console_logs {number Err QM} (w : Trace number Err QM)
  : list (Rejection Err) :=
  omap (λ e, match e with EvConsoleLog error => Some error | _ => None end) w.

(** ** Construction *)

(** [x || d] and [x ? x : d] on a text that may be absent: the text when it
    is there and not empty, [d] otherwise. *)
Definition or_else (x : option string) (d : string) : string :=
  match x with
  | None | Some "" => d
  | Some s => s
  end.

(** A text that may be absent, as a condition: absent and empty are falsy. *)
Definition truthy (x : option string) : option string :=
  match x with
  | None | Some "" => None
  | Some s => Some s
  end.

(** [instanceSettings.jsonData], as far as the constructor reads it. *)
Record JsonData := mkJsonData {
  timeInterval : option string;
  jd_authenticationType : option string;
  defaultProject : option string;
}.

(** [instanceSettings]; [jsonData] may be absent. *)
Record InstanceSettings (number : Type) := mkInstanceSettings {
  is_name : string;
  is_id : number;
  is_url : string;
  is_jsonData : option JsonData;
}.

Arguments mkInstanceSettings {number}.
Arguments is_name {number}.
Arguments is_id {number}.
Arguments is_url {number}.
Arguments is_jsonData {number}.

(** The whole datasource object.  [bq_projectName] is [None] when the field
    holds [undefined], which [getDefaultProject] can store there. *)
Record BigQueryDatasource (number QM : Type) := mkBigQueryDatasource {
  bq_id : number;
  ds_name : string;
  bq_url : string;
  bq_baseUrl : string;
  bq_projectName : option string;
  bq_queryModel : QM;
  jsonData : JsonData;
  interval : string;
  authenticationType : string;
}.

Arguments mkBigQueryDatasource {number QM}.
Arguments bq_id {number QM}.
Arguments ds_name {number QM}.
Arguments bq_url {number QM}.
Arguments bq_baseUrl {number QM}.
Arguments bq_projectName {number QM}.
Arguments bq_queryModel {number QM}.
Arguments jsonData {number QM}.
Arguments interval {number QM}.
Arguments authenticationType {number QM}.

(** A text that may be [undefined], as a template literal prints it. *)
Definition template_text (x : option string) : string :=
  match x with
  | Some s => s
  | None => "undefined"
  end.

(** The fields of the datasource that the transport wrappers and the query
    pipeline read; they use the project name in a template literal only. *)
Definition core {number QM} (this : BigQueryDatasource number QM)
  : Datasource number QM :=
  {| id := bq_id this; url := bq_url this; baseUrl := bq_baseUrl this;
     projectName := template_text (bq_projectName this);
     queryModel := bq_queryModel this |}.

(** The constructor.  [blank] is [new BigQueryQuery({})].  The result is
    [None] when the constructor throws: [jsonData.authenticationType] is read
    without the guard that the line for [interval] has. *)
Definition constructor {number QM} (blank : QM)
    (instanceSettings : InstanceSettings number)
  : option (BigQueryDatasource number QM) :=
  match is_jsonData instanceSettings with
  | None => None
  | Some jd =>
      Some {| bq_id := is_id instanceSettings;
              ds_name := is_name instanceSettings;
              bq_url := is_url instanceSettings;
              bq_baseUrl := "/bigquery/";
              bq_projectName := Some (or_else (defaultProject jd) "");
              bq_queryModel := blank;
              jsonData := jd;
              interval := or_else (timeInterval jd) "1m";
              authenticationType := or_else (jd_authenticationType jd) "jwt" |}
  end.

(** [this.projectName = p], where [p] may be [undefined]. *)
Definition set_projectName {number QM} (p : option string)
    (this : BigQueryDatasource number QM) : BigQueryDatasource number QM :=
  {| bq_id := bq_id this; ds_name := ds_name this; bq_url := bq_url this;
     bq_baseUrl := bq_baseUrl this; bq_projectName := p;
     bq_queryModel := bq_queryModel this; jsonData := jsonData this;
     interval := interval this;
     authenticationType := authenticationType this |}.

(** ** Error values and the connection methods *)

(** [error.data.error] as the code reads it: a text, or a plain object given
    by its [code] (absent when falsy) and the text of its [message]. *)
Inductive ErrorDetail :=
| DetailText (text : string)
| DetailObject (code : option string) (message_text : string).

(** A thrown or rejected value as the code reads it: a string, or an object
    with its [statusText] and its [data.error], either of which may be
    absent. *)
Inductive ErrorValue :=
| ErrText (text : string)
| ErrObject (statusText : option string) (detail : option ErrorDetail).

(** The [TypeError] raised by reading a member of [undefined]: an object
    with neither [statusText] nor [data]. *)
Definition type_error : ErrorValue := ErrObject None None.

(** [error.statusText]. *)
Definition statusText_of (error : Rejection ErrorValue) : option string :=
  match error with
  | Failure (ErrObject statusText _) => statusText
  | _ => None
  end.

(** [error.data && error.data.error], as a condition: the detail when it is
    truthy. *)
Definition detail_of (error : Rejection ErrorValue) : option ErrorDetail :=
  match error with
  | Failure (ErrObject _ (Some (DetailText ""))) => None
  | Failure (ErrObject _ detail) => detail
  | _ => None
  end.

(** [JSON.parse(text)] followed by the reading of [res.error.code] and
    [res.error.message]: their texts, or [None] when either step throws. *)
Class ErrorJson := JSON_parse_error : string → option (string * string).

Definition defaultErrorMessage : string := "Cannot connect to BigQuery API".

(** [BigQueryDatasource.formatBigqueryError(error)]. *)
Definition formatBigqueryError {ErrorJson0 : ErrorJson} (error : Rejection ErrorValue)
  : string :=
  let message :=
    "BigQuery: " +:+ match truthy (statusText_of error) with
                     | Some s => s +:+ ": "
                     | None => ""
                     end in
  match detail_of error with
  | Some (DetailText text) =>
      match JSON_parse_error text with
      | Some (code, message_text) => message +:+ (code +:+ ". " +:+ message_text)
      | None => message +:+ text
      end
  | Some (DetailObject _ _) => message +:+ "[object Object]"
  | None => message +:+ "Cannot connect to BigQuery API"
  end.

(** What the connection methods read of a response: whether [status] is 200,
    [statusText], and [data.results.ensureDefaultProjectQuery.meta
    .defaultProject].  The last is [None] when the path down to [meta] cannot
    be read (a [TypeError]), [Some None] when [meta] is there and has no
    [defaultProject] (the value read is [undefined]), and [Some (Some p)]
    when it holds the text [p]. *)
Class ResponseShape (Response : Type) := {
  response_status_is_200 : Response → bool;
  response_statusText : Response → option string;
  response_defaultProject : Response → option (option string);
}.

(** The backend call of [getDefaultProject] for a datasource id.  Its body,
    one query with a [type] and no SQL, is none of the request bodies above,
    so the call is taken as a whole: any computation on the trace with a
    settled outcome. *)
Class ProjectProbe (number Err QM Response : Type) :=
  ensureDefaultProjectQuery :
    number → M (number := number) (Err := Err) (QM := QM) (Outcome Err Response).

(** The object [testDatasource] returns. *)
Record TestResult := mkTestResult {
  status : string;
  message : string;
}.

Section Connection.
Context {number QM Response : Type}.
Context `{!Host number ErrorValue Response}.
Context {ErrorJson0 : ErrorJson}.
Context `{!ResponseShape Response}.
Context `{!ProjectProbe number ErrorValue QM Response}.

(** [getDefaultProject()]: the datasource after the call and the outcome.
    The value resolved with is the project name, [None] when it is
    [undefined]; a rejection carries the text of [formatBigqueryError]. *)
Definition getDefaultProject (this : BigQueryDatasource number QM)
  : M (number := number) (Err := ErrorValue) (QM := QM)
      (BigQueryDatasource number QM * Outcome ErrorValue (option string)) :=
  if bool_decide (authenticationType this = "gce")
     || bool_decide (truthy (bq_projectName this) = None)
  then
    bind (ensureDefaultProjectQuery (bq_id this)) (λ o,
      match o with
      | Resolved response =>
          match response_defaultProject response with
          | Some p => ret (set_projectName p this, Resolved p)
          | None =>
              ret (this, Rejected (Failure (ErrText
                     (formatBigqueryError (Failure type_error)))))
          end
      | Rejected error =>
          ret (this, Rejected (Failure (ErrText (formatBigqueryError error))))
      end)
  else ret (this, Resolved (bq_projectName this)).

(** The [catch] block of [testDatasource]. *)
Definition testDatasource_catch (error : Rejection ErrorValue)
  : M (number := number) (Err := ErrorValue) (QM := QM) TestResult :=
  bind (emit (EvConsoleLog error)) (λ _,
    ret {| status := "error";
           message :=
             match error with
             | Failure (ErrText text) => text
             | _ =>
                 let message_ :=
                   "BigQuery: " +:+ or_else (statusText_of error)
                                      defaultErrorMessage in
                 match detail_of error with
                 | Some (DetailObject (Some code) message_text) =>
                     message_ +:+ (": " +:+ code +:+ ". " +:+ message_text)
                 | _ => message_
                 end
             end |}).

(** [testDatasource()]: the datasource after the call and the object
    returned from the [finally] block. *)
Definition testDatasource (this : BigQueryDatasource number QM)
  : M (number := number) (Err := ErrorValue) (QM := QM) (BigQueryDatasource number QM * TestResult) :=
  bind (getDefaultProject this) (λ '(this', o),
    match o with
    | Rejected error =>
        bind (testDatasource_catch error) (λ result, ret (this', result))
    | Resolved projectName_ =>
        bind (doRequest (core this')
                (baseUrl (core this')
                 +:+ datasets_path (template_text projectName_))
                default_maxRetries)
          (λ sent,
             match sent with
             | Resolved response =>
                 if response_status_is_200 response
                 then ret (this',
                           {| status := "success";
                              message := "Successfully queried the BigQuery API." |})
                 else ret (this',
                           {| status := "error";
                              message := or_else (response_statusText response)
                                           defaultErrorMessage |})
             | Rejected error =>
                 bind (testDatasource_catch error)
                   (λ result, ret (this', result))
             end)
    end).

End Connection.

(** ** Runnable instances for the remaining methods *)

(** A query model whose macro expansion fails. *)
Definition failing_BigQueryQuery : BigQueryQuery Z string SampleModel := {|
  newBigQueryQuery target vars :=
    {| sm_target := target; sm_vars := vars; sm_rendered := false |};
  render qm formatter :=
    (spec_replace (rawSql (sm_target qm)) (sm_vars qm) formatter,
     {| sm_target := sm_target qm; sm_vars := sm_vars qm;
        sm_rendered := true |});
  expend_macros qm options := Rejected (Message "MacroSyntaxError");
|}.

(** Responses given by the three things the connection methods read. *)
Record SampleResponse := mkSampleResponse {
  sr_ok : bool;
  sr_statusText : option string;
  sr_defaultProject : option (option string);
}.

Definition sample_ResponseShape : ResponseShape SampleResponse := {|
  response_status_is_200 := sr_ok;
  response_statusText := sr_statusText;
  response_defaultProject := sr_defaultProject;
|}.

(** A backend with error values, answering from a script. *)
Definition scripted_backend (script : list (Outcome ErrorValue SampleResponse))
  : Host Z ErrorValue SampleResponse := {|
  datasourceRequest_outcome history request :=
    default (Rejected (Failure (ErrObject None None))) (script !! length history);
  templateSrv_replace := spec_replace;
|}.

(** A probe that settles at once with a given outcome. *)
Definition settled_probe (answer : Outcome ErrorValue SampleResponse)
  : ProjectProbe Z ErrorValue SampleModel SampleResponse :=
  λ _ w, (answer, w).

(** A [JSON.parse] that rejects every text. *)
Definition no_ErrorJson : ErrorJson := λ _, None.

Definition sample_connection (auth project : string)
  : BigQueryDatasource Z SampleModel := {|
  bq_id := 7%Z;
  ds_name := "BigQuery";
  bq_url := "http://host";
  bq_baseUrl := "/bigquery/";
  bq_projectName := Some project;
  bq_queryModel := {| sm_target := mkTarget "" "" "" None;
                      sm_vars := ∅; sm_rendered := false |};
  jsonData := mkJsonData None (Some auth) (Some project);
  interval := "1m";
  authenticationType := auth;
|}.

(** A metric-find parser that tags the response with the [refId], and a
    fixed time range. *)
Definition sample_MetricFindParser : MetricFindParser string string string :=
  λ refId_ response, Resolved [refId_ +:+ ":" +:+ response].

Definition sample_TimeSrv : TimeSrv Z := (0%Z, 3600000%Z).

(** An error object with a status text and a detail object. *)
Definition forbidden : Rejection ErrorValue :=
  Failure (ErrObject (Some "Forbidden")
             (Some (DetailObject (Some "403") "denied"))).

(** An error object whose detail is a text that is not JSON. *)
Definition quota : Rejection ErrorValue :=
  Failure (ErrObject (Some "Bad") (Some (DetailText "quota"))).

Definition run_getDefaultProject (answer : Outcome ErrorValue SampleResponse)
    (this : BigQueryDatasource Z SampleModel) :=
  getDefaultProject (ErrorJson0 := no_ErrorJson)
    (ResponseShape0 := sample_ResponseShape)
    (ProjectProbe0 := settled_probe answer) this.

Definition run_testDatasource (answer : Outcome ErrorValue SampleResponse)
    (script : list (Outcome ErrorValue SampleResponse))
    (this : BigQueryDatasource Z SampleModel) :=
  testDatasource (Host0 := scripted_backend script)
    (ErrorJson0 := no_ErrorJson) (ResponseShape0 := sample_ResponseShape)
    (ProjectProbe0 := settled_probe answer) this.

(** * Properties *)

(** ** Variable interpolation *)

Section Interpolation.
Context {number : Type} `{!JSNumber number}.

Lemma join_singleton (sep s : string) : join sep [s] = s.
Proof. reflexivity. Qed.

Lemma lodash_map_elements {B} (f : Value number → B) (value : Value number) :
  typeof value = TyObject ∨ typeof value = TyUndefined →
  lodash_map f value = map f (elements value).
Proof. destruct value; simpl; intros [?|?]; congruence. Qed.

(** C4.  A plain string value of a variable that is neither [multi] nor
    [includeAll] is returned as it is, so the token is replaced with the raw
    text: nothing is quoted and nothing is escaped, whatever [quoteLiteral]
    does. *)
Theorem interpolateVariable_plain_string `{!Quoting number}
    (s : string) (variable : TemplateVariable number) :
  multi variable = false →
  includeAll variable = false →
  interpolateVariable (VString s) variable = VString s
  ∧ js_String (interpolateVariable (VString s) variable) = s.
Proof.
  intros Hmulti Hall. unfold interpolateVariable. simpl.
  rewrite Hmulti, Hall. simpl. split; reflexivity.
Qed.

(** C8.  A number is returned as it is, whatever the flags of the variable
    are, so the token is replaced with the number's own text. *)
Theorem interpolateVariable_number `{!Quoting number}
    (n : number) (variable : TemplateVariable number) :
  interpolateVariable (VNumber n) variable = VNumber n
  ∧ js_String (interpolateVariable (VNumber n) variable) = number_to_string n.
Proof. split; reflexivity. Qed.

(** C9.  For [null] and for [undefined] the result is the empty string: the
    value is neither a string nor a number, mapping over it gives no
    element, and joining nothing gives the empty text.  It is not the text
    [NULL]. *)
Theorem interpolateVariable_null_undefined `{!Quoting number}
    (variable : TemplateVariable number) :
  interpolateVariable VNull variable = VString ""
  ∧ interpolateVariable VUndefined variable = VString ""
  ∧ interpolateVariable VNull variable ≠ VString "NULL"
  ∧ interpolateVariable VUndefined variable ≠ VString "NULL".
Proof. repeat split; try reflexivity; discriminate. Qed.

End Interpolation.

(** C3.  With the quoting of section 4.1, a variable that is [multi] or
    [includeAll], or whose value is a list, has its token replaced with its
    elements, each quoted by [quoteLiteral], joined with a comma and without
    brackets; and replacing the token of [IN (${v})] for a [multi] variable
    holding the list 1, 2, 3 gives [IN (1,2,3)]. *)
Theorem interpolateVariable_list_or_multi :
  (∀ (number : Type) (N : JSNumber number)
     (value : Value number) (variable : TemplateVariable number),
     multi variable || includeAll variable || is_array value = true →
     js_String (interpolateVariable (Quoting0 := spec_Quoting) value variable)
     = join "," (map spec_quoteLiteral (elements value)))
  ∧ spec_replace "IN (${v})" {[ "v" := var_v ]}
      (interpolateVariable (Quoting0 := spec_Quoting))
    = "IN (1,2,3)".
Proof.
  split; [|vm_compute; reflexivity].
  intros number N value variable Hcase.
  destruct value as [| |s|n|items]; unfold interpolateVariable; simpl.
  - reflexivity.
  - reflexivity.
  - simpl in Hcase. rewrite orb_false_r in Hcase. rewrite Hcase.
    simpl. unfold quoteLiteral, spec_Quoting.
    symmetry. apply (join_singleton ",").
  - symmetry. apply (join_singleton ",").
  - reflexivity.
Qed.

Lemma interpolateVariable_list_or_multi_witness :
  js_String (interpolateVariable (Quoting0 := spec_Quoting)
               (VArray [VString "a"; VString "it's"])
               (mkVariable "names" VNull false true))
  = "'a','it''s'".
Proof.
  rewrite (proj1 interpolateVariable_list_or_multi Z Z_JSNumber
             (VArray [VString "a"; VString "it's"])
             (mkVariable "names" VNull false true)).
  - vm_compute. reflexivity.
  - reflexivity.
Defined.

Lemma interpolateVariable_plain_string_witness :
  interpolateVariable (Quoting0 := spec_Quoting) (VString "abc") var_abc
  = VString "abc"
  ∧ js_String (interpolateVariable (Quoting0 := spec_Quoting)
                 (VString "abc") var_abc) = "abc".
Proof.
  apply (interpolateVariable_plain_string (number := Z)); reflexivity.
Defined.

(** ** The transport wrappers *)

Section Transport.
Context {number Err QM Response : Type}.
Context `{!Host number Err Response}.

Implicit Types (w : Trace number Err QM) (r : Request number).

Lemma requests_app w1 w2 : requests (w1 ++ w2) = requests w1 ++ requests w2.
Proof. unfold requests. apply omap_app. Qed.

Lemma requests_snoc_request w r : requests (w ++ [EvRequest r]) = requests w ++ [r].
Proof. rewrite requests_app. reflexivity. Qed.

Lemma requests_cons_expend (qm : QM) w :
  requests (EvExpendMacros qm :: w) = requests w.
Proof. reflexivity. Qed.

Lemma requests_replicate (n : nat) r :
  requests (QM := QM) (Err := Err) (replicate n (EvRequest r)) = replicate n r.
Proof. induction n as [|n IH]; simpl; [reflexivity|]. f_equal. exact IH. Qed.

Lemma replicate_snoc_shift {A} (l : list A) (x : A) (n : nat) :
  (l ++ [x]) ++ replicate n x = l ++ replicate (S n) x.
Proof. rewrite <- app_assoc. reflexivity. Qed.

(** One step of [doQueryRequest]: the request is issued; a success is
    returned, a failure is retried while retries are left. *)
Lemma doQueryRequest_unfold (this : Datasource number QM) (u q : string)
    (n : nat) w :
  doQueryRequest this u q n w =
  match datasourceRequest_outcome (requests w) (sql_request this u q), n with
  | Resolved a, _ => (Resolved a, w ++ [EvRequest (sql_request this u q)])
  | Rejected e, O => (Rejected e, w ++ [EvRequest (sql_request this u q)])
  | Rejected e, S m =>
      doQueryRequest this u q m (w ++ [EvRequest (sql_request this u q)])
  end.
Proof.
  destruct n; simpl; unfold catch_, bind, datasourceRequest, ret, sql_request;
    destruct (datasourceRequest_outcome _ _); reflexivity.
Qed.

Lemma doRequest_unfold (this : Datasource number QM) (u : string) (n : nat) w :
  doRequest this u n w =
  match datasourceRequest_outcome (requests w) (get_request this u), n with
  | Resolved a, _ => (Resolved a, w ++ [EvRequest (get_request this u)])
  | Rejected e, O =>
      (Rejected e, (w ++ [EvRequest (get_request this u)]) ++ [EvConsoleLog e])
  | Rejected e, S m =>
      doRequest this u m (w ++ [EvRequest (get_request this u)])
  end.
Proof.
  destruct n; simpl;
    unfold catch_, bind, datasourceRequest, ret, emit, get_request;
    destruct (datasourceRequest_outcome _ _); reflexivity.
Qed.

(** What [doQueryRequest] does for any retry budget: [k] failed attempts
    followed by one last attempt whose outcome is the result. *)
Lemma doQueryRequest_attempts (this : Datasource number QM) (u q : string)
    (n : nat) w :
  ∃ k, k ≤ n
    ∧ (doQueryRequest this u q n w).2
      = w ++ replicate (S k) (EvRequest (sql_request this u q))
    ∧ (doQueryRequest this u q n w).1
      = datasourceRequest_outcome
          (requests w ++ replicate k (sql_request this u q))
          (sql_request this u q)
    ∧ (∀ j, j < k →
         is_rejected (datasourceRequest_outcome
                        (requests w ++ replicate j (sql_request this u q))
                        (sql_request this u q)))
    ∧ (is_rejected (doQueryRequest this u q n w).1 → k = n).
Proof.
  revert w. induction n as [|n IH]; intros w; rewrite doQueryRequest_unfold.
  - exists 0. rewrite app_nil_r.
    destruct (datasourceRequest_outcome _ _); simpl;
      repeat split; auto; intros; lia.
  - destruct (datasourceRequest_outcome (requests w) _) as [a|e] eqn:Hfirst.
    + exists 0. rewrite app_nil_r, Hfirst. simpl.
      split; [lia|]. split; [reflexivity|]. split; [reflexivity|].
      split; [intros; lia | intros []].
    + destruct (IH (w ++ [EvRequest (sql_request this u q)]))
        as (k & Hk & Htrace & Hres & Hfail & Hlast).
      exists (S k). rewrite Htrace, Hres, requests_snoc_request.
      rewrite !replicate_snoc_shift.
      repeat split; auto; try lia.
      * intros [|j] Hj.
        -- rewrite app_nil_r, Hfirst. exact I.
        -- rewrite <- replicate_snoc_shift, <- requests_snoc_request.
           apply Hfail. lia.
      * intros Hrej. f_equal. apply Hlast.
        rewrite Hres, requests_snoc_request, replicate_snoc_shift. exact Hrej.
Qed.

(** The same for [doRequest], which also logs the error it gives up on. *)
Lemma doRequest_attempts (this : Datasource number QM) (u : string)
    (n : nat) w :
  ∃ k, k ≤ n
    ∧ (doRequest this u n w).2
      = (w ++ replicate (S k) (EvRequest (get_request this u)))
        ++ match (doRequest this u n w).1 with
           | Rejected e => [EvConsoleLog e]
           | Resolved _ => []
           end
    ∧ (doRequest this u n w).1
      = datasourceRequest_outcome
          (requests w ++ replicate k (get_request this u))
          (get_request this u)
    ∧ (∀ j, j < k →
         is_rejected (datasourceRequest_outcome
                        (requests w ++ replicate j (get_request this u))
                        (get_request this u)))
    ∧ (is_rejected (doRequest this u n w).1 → k = n).
Proof.
  revert w. induction n as [|n IH]; intros w; rewrite doRequest_unfold.
  - exists 0. rewrite app_nil_r.
    destruct (datasourceRequest_outcome _ _); simpl.
    + rewrite app_nil_r. repeat split; auto; intros; lia.
    + repeat split; auto; intros; lia.
  - destruct (datasourceRequest_outcome (requests w) _) as [a|e] eqn:Hfirst.
    + exists 0. rewrite !app_nil_r, Hfirst. simpl.
      split; [lia|]. split; [reflexivity|]. split; [reflexivity|].
      split; [intros; lia | intros []].
    + destruct (IH (w ++ [EvRequest (get_request this u)]))
        as (k & Hk & Htrace & Hres & Hfail & Hlast).
      exists (S k). rewrite Htrace, Hres, requests_snoc_request.
      rewrite !replicate_snoc_shift.
      split; [lia|]. split; [reflexivity|]. split; [reflexivity|]. split.
      * intros [|j] Hj.
        -- rewrite app_nil_r, Hfirst. exact I.
        -- rewrite <- replicate_snoc_shift, <- requests_snoc_request.
           apply Hfail. lia.
      * intros Hrej. f_equal. apply Hlast.
        rewrite Hres, requests_snoc_request, replicate_snoc_shift. exact Hrej.
Qed.

(** The transport wrappers read only the [url] of the datasource. *)
Lemma doQueryRequest_set_queryModel (this : Datasource number QM) (qm : QM)
    (u q : string) (n : nat) w :
  doQueryRequest (set_queryModel qm this) u q n w = doQueryRequest this u q n w.
Proof.
  revert w. induction n as [|n IH]; intros w.
  - rewrite !doQueryRequest_unfold. reflexivity.
  - rewrite (doQueryRequest_unfold _ u q (S n)).
    rewrite (doQueryRequest_unfold this u q (S n)).
    change (sql_request (set_queryModel qm this) u q) with (sql_request this u q).
    destruct (datasourceRequest_outcome _ _); [reflexivity|]. apply IH.
Qed.

(** X19.  Both wrappers re-issue a failed request: after [k] failed
    attempts, [k] at most [maxRetries], one more attempt is made and its
    outcome is the result, with nothing added to or taken from it.  A
    failure is the result only when all [maxRetries + 1] attempts failed, and
    it is then the failure of the last attempt. *)
Theorem transport_retries_then_passes_through (this : Datasource number QM)
    (u q : string) (n : nat) w :
  (∃ k, k ≤ n
     ∧ requests (doQueryRequest this u q n w).2
       = requests w ++ replicate (S k) (sql_request this u q)
     ∧ (doQueryRequest this u q n w).1
       = datasourceRequest_outcome
           (requests w ++ replicate k (sql_request this u q))
           (sql_request this u q)
     ∧ (∀ j, j < k →
          is_rejected (datasourceRequest_outcome
                         (requests w ++ replicate j (sql_request this u q))
                         (sql_request this u q)))
     ∧ (is_rejected (doQueryRequest this u q n w).1 → k = n))
  ∧ (∃ k, k ≤ n
     ∧ requests (doRequest this u n w).2
       = requests w ++ replicate (S k) (get_request this u)
     ∧ (doRequest this u n w).1
       = datasourceRequest_outcome
           (requests w ++ replicate k (get_request this u))
           (get_request this u)
     ∧ (∀ j, j < k →
          is_rejected (datasourceRequest_outcome
                         (requests w ++ replicate j (get_request this u))
                         (get_request this u)))
     ∧ (is_rejected (doRequest this u n w).1 → k = n)).
Proof.
  split.
  - destruct (doQueryRequest_attempts this u q n w)
      as (k & Hk & Htrace & Hres & Hfail & Hlast).
    exists k. rewrite Htrace, requests_app, requests_replicate. auto.
  - destruct (doRequest_attempts this u n w)
      as (k & Hk & Htrace & Hres & Hfail & Hlast).
    exists k. rewrite Htrace, !requests_app, requests_replicate.
    split; [exact Hk|]. split; [|auto].
    destruct (doRequest this u n w).1; simpl; apply app_nil_r.
Qed.

End Transport.

(** The wrapper on its own does not hand a first failure on: the backend
    fails the first request and answers the second; [doQueryRequest] with
    its default budget sends the request twice and resolves. *)
Lemma transport_retry_counterexample :
  ¬ passes_failure_through (QM := SampleModel)
      (Host0 := scripted_Host [Rejected (Failure "503"); Resolved "rows"])
      (doQueryRequest
         (Host0 := scripted_Host [Rejected (Failure "503"); Resolved "rows"])
         sample_datasource "/bigquery/v2/projects/proj/queries" "SELECT 1"
         default_maxRetries)
      (sql_request sample_datasource "/bigquery/v2/projects/proj/queries"
         "SELECT 1")
      [].
Proof.
  intros Hclaim.
  destruct (Hclaim (Failure "503") eq_refl) as [Hresult _].
  vm_compute in Hresult. discriminate Hresult.
Qed.

Lemma transport_retries_then_passes_through_witness :
  ∃ k, k ≤ 1
    ∧ requests
        (doQueryRequest (QM := SampleModel)
           (Host0 := scripted_Host [Rejected (Failure "503"); Resolved "rows"])
           sample_datasource "/q" "SELECT 1" 1 []).2
      = [] ++ replicate (S k) (sql_request sample_datasource "/q" "SELECT 1")
    ∧ (doQueryRequest (QM := SampleModel)
         (Host0 := scripted_Host [Rejected (Failure "503"); Resolved "rows"])
         sample_datasource "/q" "SELECT 1" 1 []).1
      = datasourceRequest_outcome
          (Host := scripted_Host [Rejected (Failure "503"); Resolved "rows"])
          ([] ++ replicate k (sql_request sample_datasource "/q" "SELECT 1"))
          (sql_request sample_datasource "/q" "SELECT 1")
    ∧ (∀ j, j < k →
         is_rejected
           (datasourceRequest_outcome
              (Host := scripted_Host [Rejected (Failure "503"); Resolved "rows"])
              ([] ++ replicate j (sql_request sample_datasource "/q" "SELECT 1"))
              (sql_request sample_datasource "/q" "SELECT 1")))
    ∧ (is_rejected
         (doQueryRequest (QM := SampleModel)
            (Host0 := scripted_Host [Rejected (Failure "503"); Resolved "rows"])
            sample_datasource "/q" "SELECT 1" 1 []).1 → k = 1).
Proof.
  exact (proj1 (transport_retries_then_passes_through
                  (Host0 := scripted_Host
                              [Rejected (Failure "503"); Resolved "rows"])
                  sample_datasource "/q" "SELECT 1" 1 [])).
Defined.

(** ** The query batch *)

Section Query.
Context {number Err QM Response Series Annotation : Type}.
Context `{!JSNumber number}.
Context `{!Quoting number}.
Context `{!BigQueryQuery number Err QM}.
Context `{!ResponseParser number Err Response Series Annotation}.
Context `{!Host number Err Response}.

Implicit Types (w : Trace number Err QM) (this : Datasource number QM).
Implicit Types (options : QueryOptions number) (t target : Target).

Lemma elem_of_visible_targets options t :
  t ∈ visible_targets options ↔ t ∈ targets options ∧ hide t ≠ Some true.
Proof. unfold visible_targets. rewrite list_elem_of_filter. tauto. Qed.

Lemma visible_targets_all_hidden options :
  (∀ t, t ∈ targets options → hide t = Some true) →
  visible_targets options = [].
Proof.
  intros Hall. unfold visible_targets.
  induction (targets options) as [|t ts IH]; [reflexivity|].
  rewrite filter_cons. destruct (decide (hide t ≠ Some true)) as [Hvis|_].
  - exfalso. apply Hvis, Hall. left.
  - apply IH. intros t' Ht'. apply Hall. right. exact Ht'.
Qed.

(** One turn of the [map] callback. *)
Lemma build_query_spec options this target w :
  build_query options this target w =
  ((set_queryModel (rendered options target).2 this,
    payload_of options this target),
   w ++ [EvRender (model_of options target)]).
Proof.
  unfold build_query, bind, emit, ret, payload_of, rendered, model_of.
  destruct (render _ _) as [sql qm']. reflexivity.
Qed.

(** The whole [map]: a payload per target, a rendering per target in the
    order of the list, and the model of the last target left in
    [this.queryModel]. *)
Lemma build_queries_spec options this (ts : list Target) w :
  build_queries options this ts w =
  ((from_option (λ t, set_queryModel (rendered options t).2 this) this (last ts),
    map (payload_of options this) ts),
   w ++ map (λ t, EvRender (model_of options t)) ts).
Proof.
  revert this w. induction ts as [|t ts IH]; intros this w; simpl.
  - unfold ret. rewrite app_nil_r. reflexivity.
  - unfold bind. rewrite build_query_spec, IH. unfold ret.
    rewrite <- app_assoc. simpl. f_equal. f_equal.
    destruct ts as [|t' ts]; [reflexivity|].
    change (last (t :: t' :: ts)) with (last (t' :: ts)).
    destruct (last (t' :: ts)) eqn:Hlast; [reflexivity|].
    apply last_None in Hlast. discriminate Hlast.
Qed.

(** [query] on a batch with no visible target. *)
Lemma query_empty options this w :
  visible_targets options = [] →
  query this options w = ((this, Resolved {| data := [] |}), w).
Proof.
  intros Hempty. unfold query, bind. rewrite build_queries_spec, Hempty.
  simpl. unfold ret. rewrite app_nil_r. reflexivity.
Qed.

(** [query] on a batch whose last visible target is [t]. *)
Lemma query_nonempty options this t w :
  last (visible_targets options) = Some t →
  query this options w =
  let qm' := (rendered options t).2 in
  let this' := set_queryModel qm' this in
  let w1 := (w ++ map (λ t, EvRender (model_of options t))
                    (visible_targets options)) ++ [EvExpendMacros qm'] in
  match expend_macros qm' options with
  | Rejected r => ((this', Rejected r), w1)
  | Resolved q =>
      let sent := doQueryRequest this (queries_url this) q default_maxRetries w1 in
      ((this',
        match sent.1 with
        | Resolved response => parseDataQuery response
        | Rejected r => Rejected r
        end),
       sent.2)
  end.
Proof.
  intros Hlast. unfold query, bind. rewrite build_queries_spec, Hlast. simpl.
  destruct (decide (length (map (payload_of options this)
                              (visible_targets options)) = 0)) as [Hlen|_].
  { rewrite length_map in Hlen. apply nil_length_inv in Hlen.
    rewrite Hlen in Hlast. discriminate Hlast. }
  unfold emit. destruct (expend_macros _ _) as [q|r]; [|reflexivity].
  unfold then_, bind, ret.
  destruct (catch_ _ _ _) as [[response|r] w2]; reflexivity.
Qed.

(** The trace of [query]: one rendering per visible target, then, if there
    is a visible target, the macro expansion of the last one and, if that
    succeeds, between one and [default_maxRetries + 1] copies of the request
    carrying the expanded SQL. *)
Lemma query_trace options this w :
  ∃ tail,
    (query this options w).2
    = (w ++ map (λ t, EvRender (model_of options t)) (visible_targets options))
      ++ tail
    ∧ match last (visible_targets options) with
      | None => tail = []
      | Some t =>
          match expend_macros (rendered options t).2 options with
          | Rejected _ => tail = [EvExpendMacros (rendered options t).2]
          | Resolved q =>
              ∃ k, k ≤ default_maxRetries
                ∧ tail = EvExpendMacros (rendered options t).2
                         :: replicate (S k)
                              (EvRequest (sql_request this (queries_url this) q))
          end
      end.
Proof.
  destruct (last (visible_targets options)) as [t|] eqn:Hlast.
  - rewrite (query_nonempty options this t w Hlast). cbv zeta.
    destruct (expend_macros _ _) as [q|r].
    + destruct (doQueryRequest_attempts this (queries_url this) q
                  default_maxRetries
                  ((w ++ map (λ t, EvRender (model_of options t))
                           (visible_targets options))
                   ++ [EvExpendMacros (rendered options t).2]))
        as (k & Hk & Htrace & _).
      eexists. split.
      * cbn [snd]. rewrite Htrace, <- app_assoc. reflexivity.
      * exists k. split; [exact Hk | reflexivity].
    + eexists. split; reflexivity.
  - apply last_None in Hlast. rewrite (query_empty options this w Hlast).
    exists []. rewrite Hlast. simpl. rewrite !app_nil_r. split; reflexivity.
Qed.

(** C1, as the code has it.  For a batch with one visible target the calls
    happen in this order: the target's model is rendered with
    [interpolateVariable] (variable interpolation), then [expend_macros] runs
    on the model as rendering left it, then the request is sent; the SQL in
    the request is the text [expend_macros] returned. *)
Theorem interpolation_precedes_expansion options this t w (q : string) :
  visible_targets options = [t] →
  expend_macros (rendered options t).2 options = Resolved q →
  ∃ k, k ≤ default_maxRetries
    ∧ (query this options w).2
      = w ++ [EvRender (model_of options t);
              EvExpendMacros (rendered options t).2]
          ++ replicate (S k) (EvRequest (sql_request this (queries_url this) q)).
Proof.
  intros Hvisible Hexpanded.
  destruct (query_trace options this w) as (tail & Htrace & Htail).
  rewrite Hvisible in Htrace, Htail. simpl in Htail.
  rewrite Hexpanded in Htail. destruct Htail as (k & Hk & ->).
  exists k. split; [exact Hk|].
  rewrite Htrace, <- app_assoc. reflexivity.
Qed.

(** C6.  The batch consists of the targets whose [hide] is not [true];
    whatever [query] renders, expands or sends comes from a target of the
    batch, so a hidden target is never sent; and when every target is hidden
    (or there is none) [query] resolves with an empty result at once and
    leaves the trace as it was, without a request to the backend. *)
Theorem hidden_targets_excluded_and_empty_batch options this w :
  (∀ t, t ∈ visible_targets options ↔ t ∈ targets options ∧ hide t ≠ Some true)
  ∧ (∃ events,
       (query this options w).2 = w ++ events
       ∧ ∀ e, e ∈ events →
           ∃ t, t ∈ targets options ∧ hide t ≠ Some true
             ∧ match e with
               | EvRender qm => qm = model_of options t
               | EvExpendMacros qm => qm = (rendered options t).2
               | EvRequest r =>
                   ∃ q, expend_macros (rendered options t).2 options = Resolved q
                      ∧ r = sql_request this (queries_url this) q
               | EvConsoleLog _ => False
               end)
  ∧ ((∀ t, t ∈ targets options → hide t = Some true) →
       query this options w = ((this, Resolved {| data := [] |}), w)
       ∧ requests (query this options w).2 = requests w).
Proof.
  split; [apply elem_of_visible_targets|]. split.
  - destruct (query_trace options this w) as (tail & Htrace & Htail).
    exists (map (λ t, EvRender (model_of options t)) (visible_targets options)
            ++ tail).
    split; [rewrite Htrace, <- app_assoc; reflexivity|].
    intros e He. apply elem_of_app in He as [He|He].
    + apply list_elem_of_fmap in He as (t & -> & Ht).
      apply elem_of_visible_targets in Ht as [Ht Hvis].
      exists t. auto.
    + destruct (last (visible_targets options)) as [t|] eqn:Hlast;
        [|subst tail; inversion He].
      assert (t ∈ targets options ∧ hide t ≠ Some true) as [Ht Hvis].
      { apply elem_of_visible_targets. apply last_Some in Hlast as [l ->].
        apply elem_of_app. right. left. }
      exists t. split; [exact Ht|]. split; [exact Hvis|].
      destruct (expend_macros _ _) as [q|r].
      * destruct Htail as (k & _ & ->).
        apply elem_of_cons in He as [->|He]; [reflexivity|].
        apply elem_of_replicate in He as [-> _]. exists q. auto.
      * subst tail. apply list_elem_of_singleton in He as ->. reflexivity.
  - intros Hall. rewrite (query_empty options this w); [split; reflexivity|].
    apply visible_targets_all_hidden, Hall.
Qed.

(** C10.  When the annotation has no raw query, absent or empty,
    [annotationQuery] rejects at once with the message [Query missing in
    annotation definition]; the trace is left as it was, so no request
    reaches the backend. *)
Theorem annotationQuery_missing_query this (options : AnnotationOptions number) w :
  rawQuery (annotation options) = None ∨ rawQuery (annotation options) = Some "" →
  annotationQuery this options w
  = (Rejected (Message "Query missing in annotation definition"), w)
  ∧ requests (annotationQuery this options w).2 = requests w.
Proof.
  intros [Hquery|Hquery]; unfold annotationQuery; rewrite Hquery;
    split; reflexivity.
Qed.

(** [query] adds nothing on top of [doQueryRequest]: when the wrapper gives
    up with a rejection, that rejection is the result of [query]. *)
Lemma query_passes_wrapper_rejection_through options this t w (q : string)
    (r : Rejection Err) :
  last (visible_targets options) = Some t →
  expend_macros (rendered options t).2 options = Resolved q →
  (doQueryRequest this (queries_url this) q default_maxRetries
     ((w ++ map (λ t, EvRender (model_of options t)) (visible_targets options))
      ++ [EvExpendMacros (rendered options t).2])).1 = Rejected r →
  (query this options w).1.2 = Rejected r.
Proof.
  intros Hlast Hexpanded Hsent.
  rewrite (query_nonempty options this t w Hlast). cbv zeta.
  rewrite Hexpanded. cbn [fst snd]. rewrite Hsent. reflexivity.
Qed.

Lemma requests_renderings options (ts : list Target) :
  requests (number := number) (Err := Err)
    (map (λ t, EvRender (model_of options t)) ts) = [].
Proof. induction ts as [|t ts IH]; [reflexivity | exact IH]. Qed.

(** However many targets are visible, [query] sends one request, repeated
    at most [default_maxRetries] times, or none. *)
Lemma query_sends_one_request options this w :
  ∃ k r, k ≤ S default_maxRetries
    ∧ requests (query this options w).2 = requests w ++ replicate k r.
Proof.
  destruct (query_trace options this w) as (tail & Htrace & Htail).
  rewrite Htrace, !requests_app, requests_renderings, app_nil_r.
  destruct (last (visible_targets options)) as [t|].
  - destruct (expend_macros _ _) as [q|r].
    + destruct Htail as (k & Hk & ->).
      exists (S k), (sql_request this (queries_url this) q).
      split; [lia|].
      rewrite requests_cons_expend, requests_replicate. reflexivity.
    + subst tail. exists 0, (sql_request this "" ""). split; [lia|reflexivity].
  - subst tail. exists 0, (sql_request this "" ""). split; [lia|reflexivity].
Qed.

(** C5.  [query] calls the executor, [doQueryRequest], once and has no
    handler of its own: nothing is sent to the backend before that call, the
    trace of [query] ends where the call ends, so nothing is sent after it
    either, and when the call rejects, its rejection is the result of
    [query], unmodified. *)
Theorem query_never_retries options this t w (q : string) :
  last (visible_targets options) = Some t →
  expend_macros (rendered options t).2 options = Resolved q →
  let before :=
    (w ++ map (λ t, EvRender (model_of options t)) (visible_targets options))
    ++ [EvExpendMacros (rendered options t).2] in
  let sent :=
    doQueryRequest this (queries_url this) q default_maxRetries before in
  requests before = requests w
  ∧ (query this options w).2 = sent.2
  ∧ (∀ r, sent.1 = Rejected r → (query this options w).1.2 = Rejected r)
  ∧ (∀ response, sent.1 = Resolved response →
       (query this options w).1.2 = parseDataQuery response).
Proof.
  intros Hlast Hexpanded. cbv zeta.
  rewrite (query_nonempty options this t w Hlast). cbv zeta.
  rewrite Hexpanded. cbn [fst snd]. split.
  { rewrite !requests_app, requests_renderings. simpl.
    rewrite !app_nil_r. reflexivity. }
  split; [reflexivity|].
  split; intros x Hsent; rewrite Hsent; reflexivity.
Qed.

End Query.

(** ** Concrete runs *)

(** C1, as stated, fails: in the trace of a query with one target the
    rendering (index 0) comes before the macro expansion (index 1). *)
Lemma expansion_first_counterexample :
  ¬ expansion_precedes_interpolation
      (run_query [Resolved "rows"] (sample_options [target_A])).2.
Proof.
  intros Hclaim.
  specialize (Hclaim 0 1 _ _ eq_refl eq_refl). lia.
Qed.

Lemma interpolation_precedes_expansion_witness :
  ∃ k, k ≤ default_maxRetries
    ∧ (run_query [Resolved "rows"] (sample_options [target_H; target_A])).2
      = [] ++ [EvRender (model_of (BigQueryQuery0 := sample_BigQueryQuery)
                           (sample_options [target_H; target_A]) target_A);
               EvExpendMacros
                 (rendered (Quoting0 := spec_Quoting)
                    (BigQueryQuery0 := sample_BigQueryQuery)
                    (sample_options [target_H; target_A]) target_A).2]
           ++ replicate (S k)
                (EvRequest (sql_request sample_datasource
                              (queries_url sample_datasource)
                              "SELECT a FROM t")).
Proof.
  apply (interpolation_precedes_expansion
           (Quoting0 := spec_Quoting) (BigQueryQuery0 := sample_BigQueryQuery)
           (ResponseParser0 := sample_ResponseParser)
           (Host0 := scripted_Host [Resolved "rows"])
           (sample_options [target_H; target_A]) sample_datasource target_A []
           "SELECT a FROM t");
    reflexivity.
Defined.

(** C2 on a batch of two visible targets and a backend that answers at
    once: two payloads are built, for A and for B, and the backend receives
    one request, carrying the SQL of B alone. *)
Theorem two_targets_one_request :
  map p_refId (run_build_queries (sample_options [target_A; target_B])).1.2
  = ["A"; "B"]
  ∧ requests (run_query [Resolved "rows"] (sample_options [target_A; target_B])).2
    = [sql_request sample_datasource (queries_url sample_datasource)
         "SELECT b FROM t"]
  ∧ (run_query [Resolved "rows"] (sample_options [target_A; target_B])).1.2
    = Resolved {| data := ["rows"] |}.
Proof. vm_compute. repeat split; reflexivity. Qed.

Lemma hidden_targets_excluded_and_empty_batch_witness :
  run_query [Resolved "rows"] (sample_options [target_H; target_H])
  = ((sample_datasource, Resolved {| data := [] |}), [])
  ∧ requests (run_query [Resolved "rows"]
                (sample_options [target_H; target_H])).2 = requests (QM := SampleModel) (Err := string) [].
Proof.
  apply (hidden_targets_excluded_and_empty_batch
           (Quoting0 := spec_Quoting) (BigQueryQuery0 := sample_BigQueryQuery)
           (ResponseParser0 := sample_ResponseParser)
           (Host0 := scripted_Host [Resolved "rows"])
           (sample_options [target_H; target_H]) sample_datasource []).
  intros t Ht. simpl in Ht.
  apply elem_of_cons in Ht as [->|Ht]; [reflexivity|].
  apply list_elem_of_singleton in Ht as ->. reflexivity.
Defined.

Lemma annotationQuery_missing_query_witness :
  run_annotationQuery [Resolved "rows"]
    (mkAnnotationOptions (mkAnnotationDef "deploys" (Some "")) ∅ 0%Z 1%Z)
  = (Rejected (Message "Query missing in annotation definition"), [])
  ∧ requests (run_annotationQuery [Resolved "rows"]
                (mkAnnotationOptions (mkAnnotationDef "deploys" (Some ""))
                   ∅ 0%Z 1%Z)).2 = requests (QM := SampleModel) (Err := string) [].
Proof.
  apply (annotationQuery_missing_query
           (Quoting0 := spec_Quoting)
           (ResponseParser0 := sample_ResponseParser)
           (Host0 := scripted_Host [Resolved "rows"])
           sample_datasource
           (mkAnnotationOptions (mkAnnotationDef "deploys" (Some "")) ∅ 0%Z 1%Z)
           []).
  right. reflexivity.
Defined.

(** * Further properties of the datasource *)

(** ** Interpolation *)

Section InterpolationMore.
Context {number : Type} `{!Quoting number}.

Implicit Types (value : Value number) (variable : TemplateVariable number).

Lemma string_app_assoc (a b c : string) : (a +:+ b) +:+ c = a +:+ (b +:+ c).
Proof.
  induction a as [|ch a IH]; [reflexivity|].
  change (String ch ((a +:+ b) +:+ c) = String ch (a +:+ (b +:+ c))).
  rewrite IH. reflexivity.
Qed.

Lemma join_cons (sep x : string) (l : list string) :
  l ≠ [] → join sep (x :: l) = x +:+ sep +:+ join sep l.
Proof. destruct l; [congruence | reflexivity]. Qed.

Lemma join_app (sep : string) (l1 l2 : list string) :
  l1 ≠ [] → l2 ≠ [] →
  join sep (l1 ++ l2) = join sep l1 +:+ sep +:+ join sep l2.
Proof.
  intros Hl1 Hl2. induction l1 as [|x l1 IH]; [congruence|].
  destruct l1 as [|y l1].
  - simpl app. rewrite join_cons by exact Hl2. reflexivity.
  - change ((x :: y :: l1) ++ l2) with (x :: ((y :: l1) ++ l2)).
    rewrite join_cons by discriminate. rewrite IH by discriminate.
    rewrite (join_cons sep x (y :: l1)) by discriminate.
    rewrite !string_app_assoc. reflexivity.
Qed.

(** X1.  The result of [interpolateVariable] is always a string, except for
    a number, which comes back as the same number; it is never [null],
    [undefined] or an array. *)
Theorem interpolateVariable_string_or_number value variable :
  (∃ s, interpolateVariable value variable = VString s)
  ∨ (∃ n, value = VNumber n ∧ interpolateVariable value variable = VNumber n).
Proof.
  destruct value as [| |s|n|items]; unfold interpolateVariable; simpl;
    try (left; eexists; reflexivity).
  - destruct (multi variable || includeAll variable);
      left; eexists; reflexivity.
  - right. exists n. split; reflexivity.
Qed.

(** X2.  The flags of the variable are read for string values only: for any
    other value two variables give the same result. *)
Theorem interpolateVariable_flags_only_for_strings value
    (variable1 variable2 : TemplateVariable number) :
  typeof value ≠ TyString →
  interpolateVariable value variable1 = interpolateVariable value variable2.
Proof.
  intros Hkind. destruct value; unfold interpolateVariable; simpl in *;
    congruence.
Qed.

(** X3.  A list holding one string interpolates like that string under a
    [multi] or [includeAll] variable: the quoted string, without a comma. *)
Theorem interpolateVariable_singleton_list (s : string) variable variable' :
  multi variable || includeAll variable = true →
  interpolateVariable (VArray [VString s]) variable'
  = interpolateVariable (VString s) variable
  ∧ interpolateVariable (VArray [VString s]) variable'
    = VString (quoteLiteral (VString s)).
Proof.
  intros Hflag. unfold interpolateVariable. simpl. rewrite Hflag.
  split; reflexivity.
Qed.

(** X4.  The empty list interpolates to the empty string, and the list made
    of two non-empty lists to their two texts with a comma between them. *)
Theorem interpolateVariable_list_append
    (items1 items2 : list (Value number)) variable :
  interpolateVariable (VArray []) variable = VString ""
  ∧ (items1 ≠ [] → items2 ≠ [] →
     ∃ s1 s2,
       interpolateVariable (VArray items1) variable = VString s1
       ∧ interpolateVariable (VArray items2) variable = VString s2
       ∧ interpolateVariable (VArray (items1 ++ items2)) variable
         = VString (s1 +:+ "," +:+ s2)).
Proof.
  split; [reflexivity|]. intros H1 H2.
  exists (join "," (map quoteLiteral items1)), (join "," (map quoteLiteral items2)).
  unfold interpolateVariable. simpl. repeat split.
  rewrite map_app, join_app; [reflexivity| |];
    intros Hnil; apply map_eq_nil in Hnil; contradiction.
Qed.

End InterpolationMore.

(** ** The transport wrappers and the console *)

Section TransportMore.
Context {number Err QM Response : Type}.
Context `{!Host number Err Response}.

Implicit Types (w : Trace number Err QM).

Lemma console_logs_app w1 w2 :
  console_logs (w1 ++ w2) = console_logs w1 ++ console_logs w2.
Proof. unfold console_logs. apply omap_app. Qed.

Lemma console_logs_requests (n : nat) (r : Request number) :
  console_logs (Err := Err) (QM := QM) (replicate n (EvRequest r)) = [].
Proof. induction n as [|n IH]; [reflexivity | exact IH]. Qed.

(** X5.  [doQueryRequest] writes nothing to the console.  [doRequest] writes
    one entry exactly when it gives up, and the entry is the error it
    rejects with; retried failures are not logged. *)
Theorem wrappers_console_logging (this : Datasource number QM)
    (u q : string) (n : nat) w :
  console_logs (doQueryRequest this u q n w).2 = console_logs w
  ∧ console_logs (doRequest this u n w).2
    = console_logs w ++ match (doRequest this u n w).1 with
                        | Rejected e => [e]
                        | Resolved _ => []
                        end.
Proof.
  split.
  - destruct (doQueryRequest_attempts this u q n w) as (k & _ & Htrace & _).
    rewrite Htrace, console_logs_app, console_logs_requests.
    apply app_nil_r.
  - destruct (doRequest_attempts this u n w) as (k & _ & Htrace & _).
    rewrite Htrace, !console_logs_app, console_logs_requests, app_nil_r.
    f_equal. destruct (doRequest this u n w).1; reflexivity.
Qed.

End TransportMore.

(** ** More on the query batch *)

Section QueryMore.
Context {number Err QM Response Series Annotation : Type}.
Context `{!JSNumber number}.
Context `{!Quoting number}.
Context `{!BigQueryQuery number Err QM}.
Context `{!ResponseParser number Err Response Series Annotation}.
Context `{!Host number Err Response}.

Implicit Types (w : Trace number Err QM) (this : Datasource number QM).
Implicit Types (options : QueryOptions number) (t target : Target).

(** X6.  The [map] of [query] builds one payload per visible target, in the
    order of the targets, with the target's [refId] and [format], the
    datasource's id and the interval and point limit of the options. *)
Theorem query_payloads options this w :
  let payloads := (build_queries options this (visible_targets options) w).1.2 in
  length payloads = length (visible_targets options)
  ∧ map p_refId payloads = map refId (visible_targets options)
  ∧ map p_format payloads = map format (visible_targets options)
  ∧ Forall (λ p, p_datasourceId p = id this
                 ∧ p_intervalMs p = Some (intervalMs options)
                 ∧ p_maxDataPoints p = Some (maxDataPoints options)) payloads.
Proof.
  cbv zeta. rewrite build_queries_spec. cbn [fst snd].
  split; [apply length_map|].
  split; [rewrite map_map; reflexivity|].
  split; [rewrite map_map; reflexivity|].
  apply Forall_forall. intros p Hp.
  apply list_elem_of_fmap in Hp as (t & -> & _). repeat split.
Qed.

(** X7.  [query] changes one field of the datasource, [queryModel]: after
    the call it is the model of the last visible target as rendering left
    it, and it is untouched when no target is visible. *)
Theorem query_datasource_after options this w :
  let this' := (query this options w).1.1 in
  id this' = id this ∧ url this' = url this ∧ baseUrl this' = baseUrl this
  ∧ projectName this' = projectName this
  ∧ queryModel this'
    = match last (visible_targets options) with
      | Some t => (rendered options t).2
      | None => queryModel this
      end.
Proof.
  cbv zeta. destruct (last (visible_targets options)) as [t|] eqn:Hlast.
  - rewrite (query_nonempty options this t w Hlast). cbv zeta.
    destruct (expend_macros _ _); repeat split.
  - apply last_None in Hlast. rewrite (query_empty options this w Hlast).
    repeat split.
Qed.

(** X8.  When the macro expansion of the last visible target fails, [query]
    fails with that error and nothing is sent to the backend. *)
Theorem query_expansion_failure options this t w (r : Rejection Err) :
  last (visible_targets options) = Some t →
  expend_macros (rendered options t).2 options = Rejected r →
  (query this options w).1.2 = Rejected r
  ∧ requests (query this options w).2 = requests w.
Proof.
  intros Hlast Hfail. rewrite (query_nonempty options this t w Hlast).
  cbv zeta. rewrite Hfail. cbn [fst snd]. split; [reflexivity|].
  rewrite !requests_app, requests_renderings. simpl. rewrite !app_nil_r.
  reflexivity.
Qed.

End QueryMore.

(** ** Annotation, listing and metric-find queries *)

Section SingleRequests.
Context {number Err QM Response Series Annotation Filter Item Found : Type}.
Context `{!JSNumber number}.
Context `{!Quoting number}.
Context `{!ResponseParser number Err Response Series Annotation}.
Context `{!Host number Err Response}.
Context `{!ListingParser Err Response Filter Item}.
Context `{!MetricFindParser Err Response Found}.
Context `{!TimeSrv number}.

Implicit Types (w : Trace number Err QM) (this : Datasource number QM).

(** X9.  With a raw query, [annotationQuery] sends exactly one request, a
    POST to [/api/tsdb/query] with the one interpolated query, and never
    sends it again: a failure of the backend is the result as it is, and a
    response goes to [transformAnnotationResponse]. *)
Theorem annotationQuery_single_request this
    (options : AnnotationOptions number) (sql : string) w :
  rawQuery (annotation options) = Some sql →
  sql ≠ "" →
  (annotationQuery this options w).2
  = w ++ [EvRequest (annotation_request this options sql)]
  ∧ (annotationQuery this options w).1
    = match datasourceRequest_outcome (requests w)
              (annotation_request this options sql) with
      | Resolved response => transformAnnotationResponse options response
      | Rejected r => Rejected r
      end.
Proof.
  intros Hquery Hsql. unfold annotationQuery. rewrite Hquery.
  destruct sql as [|c rest]; [congruence|].
  unfold then_, bind, datasourceRequest, ret, annotation_request.
  destruct (datasourceRequest_outcome _ _); split; reflexivity.
Qed.

(** [doRequest] with its default budget, attempt by attempt. *)
Lemma doRequest_default this (u : string) w :
  doRequest this u default_maxRetries w =
  match datasourceRequest_outcome (requests w) (get_request this u) with
  | Resolved response => (Resolved response, w ++ [EvRequest (get_request this u)])
  | Rejected _ =>
      match datasourceRequest_outcome (requests w ++ [get_request this u])
              (get_request this u) with
      | Resolved response =>
          (Resolved response,
           w ++ [EvRequest (get_request this u); EvRequest (get_request this u)])
      | Rejected e =>
          (Rejected e,
           w ++ [EvRequest (get_request this u); EvRequest (get_request this u);
                 EvConsoleLog e])
      end
  end.
Proof.
  unfold default_maxRetries. rewrite doRequest_unfold.
  destruct (datasourceRequest_outcome (requests w) _); [reflexivity|].
  rewrite doRequest_unfold, requests_snoc_request.
  destruct (datasourceRequest_outcome _ _);
    rewrite <- ?app_assoc; reflexivity.
Qed.

(** X10.  Each listing method sends a GET without a body to its own path
    under [url + baseUrl].  When the backend answers the first attempt, the
    request is sent once and the response goes to the method's parser.  Only
    when the first attempt fails is the same request sent a second time; its
    response goes to the parser, and only when it fails too does the method
    reject, with the second failure, which is also written to the console. *)
Theorem listings_send_gets this (p d t : string) (filter_ : Filter) w :
  let behaviour (path : string) (parse : Response → Outcome Err (list Item)) :=
    let r := {| req_url := url this +:+ (baseUrl this +:+ path);
                req_method := GET; req_data := NoData |} in
    match datasourceRequest_outcome (requests w) r with
    | Resolved response => (parse response, w ++ [EvRequest r])
    | Rejected _ =>
        match datasourceRequest_outcome (requests w ++ [r]) r with
        | Resolved response => (parse response, w ++ [EvRequest r; EvRequest r])
        | Rejected e =>
            (Rejected e, w ++ [EvRequest r; EvRequest r; EvConsoleLog e])
        end
    end in
  getProjects this w = behaviour "v2/projects" parseProjects
  ∧ getDatasets this p w
    = behaviour ("v2/projects/" +:+ p +:+ "/datasets") parseDatasets
  ∧ getTables this p d w
    = behaviour ("v2/projects/" +:+ p +:+ "/datasets/" +:+ d +:+ "/tables")
        parseTabels
  ∧ getTableFields this p d t filter_ w
    = behaviour
        ("v2/projects/" +:+ p +:+ "/datasets/" +:+ d +:+ "/tables/" +:+ t)
        (λ response, parseTabelFields response filter_).
Proof.
  cbv zeta.
  unfold getProjects, getDatasets, getTables, getTableFields, then_, bind, ret.
  rewrite !doRequest_default.
  unfold get_request, projects_path, datasets_path, tables_path, table_path.
  repeat split;
    repeat (destruct (datasourceRequest_outcome _ _)); reflexivity.
Qed.

(** X11.  The [refId] of [metricFindQuery] is the name of the variable when
    the options, their variable and a non-empty name are all there, and
    [tempvar] in every other case; it is never empty.  The query is sent
    once, in one POST to [/api/tsdb/query] that is not repeated on failure,
    and the parser is given the [refId] that was sent. *)
Theorem metricFindQuery_refId this (query_ : string)
    (optionalOptions : option MetricFindOptions) w :
  let refId_ := p_refId (metricFind_payload this query_ optionalOptions) in
  let request :=
    {| req_url := "/api/tsdb/query"; req_method := POST;
       req_data :=
         TsdbData (number_to_string timeRange.1) (number_to_string timeRange.2)
           [{| p_refId := refId_;
               p_intervalMs := None;
               p_maxDataPoints := None;
               p_datasourceId := id this;
               p_rawSql := templateSrv_replace query_ ∅ interpolateVariable;
               p_format := "table" |}] |} in
  (∀ n, optionalOptions
        = Some (mkMetricFindOptions (Some (mkMetricFindVariable (Some n)))) →
        n ≠ "" → refId_ = n)
  ∧ ((∀ n, optionalOptions
           = Some (mkMetricFindOptions (Some (mkMetricFindVariable (Some n)))) →
           n = "") →
     refId_ = "tempvar")
  ∧ refId_ ≠ ""
  ∧ (metricFindQuery this query_ optionalOptions w).2 = w ++ [EvRequest request]
  ∧ (metricFindQuery this query_ optionalOptions w).1
    = match datasourceRequest_outcome (requests w) request with
      | Resolved response => parseMetricFindQueryResult refId_ response
      | Rejected r => Rejected r
      end.
Proof.
  cbv zeta. cbn [p_refId metricFind_payload]. split.
  { intros n -> Hn. destruct n; [congruence | reflexivity]. }
  split.
  { intros Hnone. destruct optionalOptions as [o|]; [|reflexivity].
    destruct o as [v]. destruct v as [v|]; [|reflexivity].
    destruct v as [name]. destruct name as [n|]; [|reflexivity].
    rewrite (Hnone n eq_refl). reflexivity. }
  split.
  { destruct optionalOptions as [o|]; [|discriminate].
    destruct o as [v]. destruct v as [v|]; [|discriminate].
    destruct v as [name]. destruct name as [n|]; [|discriminate].
    destruct n; discriminate. }
  unfold metricFindQuery, then_, bind, datasourceRequest, ret,
    metricFind_payload.
  destruct (datasourceRequest_outcome _ _); split; reflexivity.
Qed.

End SingleRequests.

(** ** Construction *)

Lemma or_else_nonempty (x : option string) (d : string) :
  d ≠ "" → or_else x d ≠ "".
Proof. destruct x as [[|c s]|]; simpl; [auto | discriminate | auto]. Qed.

Lemma or_else_given (x : option string) (d a : string) :
  x = Some a → a ≠ "" → or_else x d = a.
Proof. intros -> Ha. destruct a; [congruence | reflexivity]. Qed.

Lemma or_else_empty_default (x : option string) :
  or_else x "" = "" ↔ truthy x = None.
Proof. destruct x as [[|c s]|]; simpl; split; congruence. Qed.

(** X12.  The constructor throws exactly when [jsonData] of the settings is
    absent.  Otherwise the datasource it builds keeps the [jsonData], name,
    id and url of the settings, has the fixed [baseUrl] and the blank query
    model, takes [interval] and [authenticationType] from [jsonData] when
    they are given and not empty and is [1m] and [jwt] otherwise, so that
    neither is ever empty, and has the configured default project as its
    project name, the empty text when none is configured. *)
Theorem constructor_defaults {number QM : Type} (blank : QM)
    (instanceSettings : InstanceSettings number) :
  (constructor blank instanceSettings = None
   ↔ is_jsonData instanceSettings = None)
  ∧ ∀ jd, is_jsonData instanceSettings = Some jd →
      ∃ this, constructor blank instanceSettings = Some this
        ∧ jsonData this = jd
        ∧ ds_name this = is_name instanceSettings
        ∧ bq_id this = is_id instanceSettings
        ∧ bq_url this = is_url instanceSettings
        ∧ bq_baseUrl this = "/bigquery/"
        ∧ bq_queryModel this = blank
        ∧ (∀ i, timeInterval jd = Some i → i ≠ "" → interval this = i)
        ∧ (timeInterval jd = None ∨ timeInterval jd = Some "" →
           interval this = "1m")
        ∧ (∀ a, jd_authenticationType jd = Some a → a ≠ "" →
                authenticationType this = a)
        ∧ (jd_authenticationType jd = None ∨ jd_authenticationType jd = Some "" →
           authenticationType this = "jwt")
        ∧ (∀ project, defaultProject jd = Some project →
                      bq_projectName this = Some project)
        ∧ (defaultProject jd = None → bq_projectName this = Some "")
        ∧ interval this ≠ ""
        ∧ authenticationType this ≠ "".
Proof.
  unfold constructor. destruct (is_jsonData instanceSettings) as [jd|].
  - split; [split; discriminate|]. intros jd' [= <-].
    eexists. split; [reflexivity|]. cbn.
    repeat split.
    + intros i Hi Hne. exact (or_else_given _ _ _ Hi Hne).
    + intros [Hi|Hi]; rewrite Hi; reflexivity.
    + intros a Ha Hne. exact (or_else_given _ _ _ Ha Hne).
    + intros [Ha|Ha]; rewrite Ha; reflexivity.
    + intros project ->. destruct project; reflexivity.
    + intros ->. reflexivity.
    + apply or_else_nonempty. discriminate.
    + apply or_else_nonempty. discriminate.
  - split; [split; reflexivity|]. intros jd [=].
Qed.

(** ** Error messages *)

Section ErrorMessages.
Context {ErrorJson0 : ErrorJson}.

Lemma string_app_nonempty_r (a b : string) : b ≠ "" → a +:+ b ≠ "".
Proof. destruct a; [auto | discriminate]. Qed.

Lemma detail_of_text_nonempty (error : Rejection ErrorValue) (text : string) :
  detail_of error = Some (DetailText text) → text ≠ "".
Proof.
  destruct error as [m|[s|st [[t|c m]|]]]; simpl; try discriminate.
  destruct t; [discriminate|]. intros [= <-]. discriminate.
Qed.

(** The shape of every message of [formatBigqueryError]. *)
Lemma formatBigqueryError_shape (error : Rejection ErrorValue) :
  ∃ rest, rest ≠ "" ∧ formatBigqueryError error = "BigQuery: " +:+ rest.
Proof.
  unfold formatBigqueryError. cbv zeta.
  set (sp := match truthy (statusText_of error) with
             | Some s => s +:+ ": "
             | None => ""
             end).
  destruct (detail_of error) as [[text|code m]|] eqn:Hdetail.
  - destruct (JSON_parse_error text) as [[code m]|].
    + exists (sp +:+ code +:+ ". " +:+ m). split; [|apply string_app_assoc].
      apply string_app_nonempty_r, string_app_nonempty_r. discriminate.
    + exists (sp +:+ text). split; [|apply string_app_assoc].
      apply string_app_nonempty_r.
      exact (detail_of_text_nonempty error text Hdetail).
  - exists (sp +:+ "[object Object]"). split; [|apply string_app_assoc].
    apply string_app_nonempty_r. discriminate.
  - exists (sp +:+ "Cannot connect to BigQuery API").
    split; [|apply string_app_assoc].
    apply string_app_nonempty_r. discriminate.
Qed.

(** X13.  Every message of [formatBigqueryError] is [BigQuery: ] followed
    by a non-empty text.  For an error with neither a status text nor a
    [data.error], a thrown string or a [TypeError] among them, it is
    [BigQuery: Cannot connect to BigQuery API].  A non-empty [data.error]
    text that is not JSON is appended as it is, after the status text and a
    colon when the error has a status text, right after the prefix when it
    has none. *)
Theorem formatBigqueryError_prefixed (error : Rejection ErrorValue) :
  (∃ rest, rest ≠ "" ∧ formatBigqueryError error = "BigQuery: " +:+ rest)
  ∧ (truthy (statusText_of error) = None → detail_of error = None →
     formatBigqueryError error = "BigQuery: Cannot connect to BigQuery API")
  ∧ (∀ text, text ≠ "" → JSON_parse_error text = None →
       (∀ s, s ≠ "" →
          formatBigqueryError
            (Failure (ErrObject (Some s) (Some (DetailText text))))
          = "BigQuery: " +:+ s +:+ ": " +:+ text)
       ∧ formatBigqueryError
           (Failure (ErrObject None (Some (DetailText text))))
         = "BigQuery: " +:+ text
       ∧ formatBigqueryError
           (Failure (ErrObject (Some "") (Some (DetailText text))))
         = "BigQuery: " +:+ text).
Proof.
  split; [apply formatBigqueryError_shape|]. split.
  - intros Hstatus Hdetail. unfold formatBigqueryError.
    rewrite Hstatus, Hdetail. reflexivity.
  - intros text Htext Hjson.
    assert (∀ st, detail_of (Failure (ErrObject st (Some (DetailText text))))
                  = Some (DetailText text)) as Hdetail.
    { intros st. destruct text; [congruence | reflexivity]. }
    split; [|split].
    + intros s Hs. unfold formatBigqueryError. rewrite Hdetail, Hjson.
      destruct s; [congruence|]. cbn [statusText_of truthy].
      rewrite !string_app_assoc. reflexivity.
    + unfold formatBigqueryError. rewrite Hdetail, Hjson. reflexivity.
    + unfold formatBigqueryError. rewrite Hdetail, Hjson. reflexivity.
Qed.

End ErrorMessages.

(** ** The connection methods *)

Section ConnectionProperties.
Context {number QM Response : Type}.
Context `{!Host number ErrorValue Response}.
Context {ErrorJson0 : ErrorJson}.
Context `{!ResponseShape Response}.
Context `{!ProjectProbe number ErrorValue QM Response}.

Implicit Types (w : Trace number ErrorValue QM).
Implicit Types (this : BigQueryDatasource number QM).

Lemma truthy_nonempty (p : string) : p ≠ "" → truthy (Some p) ≠ None.
Proof. destruct p; [congruence | discriminate]. Qed.

(** [getDefaultProject] when it does not ask the backend. *)
Lemma getDefaultProject_known this w :
  authenticationType this ≠ "gce" →
  truthy (bq_projectName this) ≠ None →
  getDefaultProject this w = ((this, Resolved (bq_projectName this)), w).
Proof.
  intros Hauth Hproject. unfold getDefaultProject.
  rewrite (bool_decide_eq_false_2 _ Hauth).
  rewrite (bool_decide_eq_false_2 _ Hproject). reflexivity.
Qed.

(** The three ways [getDefaultProject] can end. *)
Lemma getDefaultProject_cases this w :
  getDefaultProject this w = ((this, Resolved (bq_projectName this)), w)
  ∨ (∃ p, getDefaultProject this w
          = ((set_projectName p this, Resolved p),
             (ensureDefaultProjectQuery (bq_id this) w).2))
  ∨ (∃ error, getDefaultProject this w
              = ((this, Rejected (Failure (ErrText (formatBigqueryError error)))),
                 (ensureDefaultProjectQuery (bq_id this) w).2)).
Proof.
  unfold getDefaultProject.
  destruct (bool_decide _ || bool_decide _); [|left; reflexivity].
  right. unfold bind, ret.
  destruct (ensureDefaultProjectQuery _ w) as [[response|error] w'].
  - destruct (response_defaultProject response) as [p|].
    + left. exists p. reflexivity.
    + right. exists (Failure type_error). reflexivity.
  - right. exists error. reflexivity.
Qed.

(** X14.  Once [getDefaultProject] has answered with a non-empty project
    under an authentication other than [gce], calling it again on the
    datasource it left gives the same project without asking the backend. *)
Theorem getDefaultProject_remembers this this' w w' (p : string) :
  authenticationType this ≠ "gce" →
  p ≠ "" →
  getDefaultProject this w = ((this', Resolved (Some p)), w') →
  getDefaultProject this' w' = ((this', Resolved (Some p)), w').
Proof.
  intros Hauth Hp Hfirst.
  destruct (getDefaultProject_cases this w)
    as [Hcase|[(p' & Hcase)|(error & Hcase)]];
    rewrite Hcase in Hfirst.
  - injection Hfirst as <- Hproject <-.
    rewrite <- Hproject. apply getDefaultProject_known; [assumption|].
    rewrite Hproject. apply truthy_nonempty, Hp.
  - injection Hfirst as <- -> <-.
    apply (getDefaultProject_known (set_projectName (Some p) this));
      [assumption | apply truthy_nonempty, Hp].
  - discriminate Hfirst.
Qed.

(** X15.  When [getDefaultProject] rejects, it rejects with a string that
    starts with [BigQuery: ], and the datasource, its project name included,
    is as it was. *)
Theorem getDefaultProject_rejection this w (e : Rejection ErrorValue) :
  (getDefaultProject this w).1.2 = Rejected e →
  (∃ rest, rest ≠ "" ∧ e = Failure (ErrText ("BigQuery: " +:+ rest)))
  ∧ (getDefaultProject this w).1.1 = this.
Proof.
  intros Hrejected.
  destruct (getDefaultProject_cases this w)
    as [Hcase|[(p' & Hcase)|(error & Hcase)]];
    rewrite Hcase in Hrejected |- *; cbn [fst snd] in *;
    try discriminate Hrejected.
  injection Hrejected as <-. split; [|reflexivity].
  destruct (formatBigqueryError_shape error) as (rest & Hrest & ->).
  exists rest. split; [exact Hrest | reflexivity].
Qed.

(** [testDatasource], branch by branch. *)
Lemma testDatasource_unfold this w :
  testDatasource this w =
  match (getDefaultProject this w).1.2 with
  | Rejected error =>
      (((getDefaultProject this w).1.1,
        (testDatasource_catch (number := number) (QM := QM) error
           (getDefaultProject this w).2).1),
       (getDefaultProject this w).2 ++ [EvConsoleLog error])
  | Resolved p =>
      let this' := (getDefaultProject this w).1.1 in
      let sent := doRequest (core this')
                    (baseUrl (core this') +:+ datasets_path (template_text p))
                    default_maxRetries (getDefaultProject this w).2 in
      match sent.1 with
      | Resolved response =>
          ((this',
            if response_status_is_200 response
            then {| status := "success";
                    message := "Successfully queried the BigQuery API." |}
            else {| status := "error";
                    message := or_else (response_statusText response)
                                 defaultErrorMessage |}),
           sent.2)
      | Rejected error =>
          ((this',
            (testDatasource_catch (number := number) (QM := QM) error
               sent.2).1),
           sent.2 ++ [EvConsoleLog error])
      end
  end.
Proof.
  unfold testDatasource at 1. unfold bind at 1.
  destruct (getDefaultProject this w) as [[this' [p|error]] w1].
  - cbn [fst snd]. cbv zeta. unfold bind at 1.
    destruct (doRequest _ _ _ w1) as [[response|error] w2]; cbn [fst snd].
    + destruct (response_status_is_200 response); reflexivity.
    + reflexivity.
  - reflexivity.
Qed.

(** X16.  [testDatasource] reports [success] in one case only, and always
    in that case: [getDefaultProject] gave a project and the request for
    that project's datasets was answered, at the first or the second
    attempt, with status 200.  The message of a [success] is the fixed
    success text. *)
Theorem testDatasource_success this w :
  (status (testDatasource this w).1.2 = "success"
   ↔ ∃ p response,
       (getDefaultProject this w).1.2 = Resolved p
       ∧ (doRequest (core (getDefaultProject this w).1.1)
            (baseUrl (core (getDefaultProject this w).1.1)
             +:+ datasets_path (template_text p))
            default_maxRetries (getDefaultProject this w).2).1
         = Resolved response
       ∧ response_status_is_200 response = true)
  ∧ (status (testDatasource this w).1.2 = "success" →
     message (testDatasource this w).1.2
     = "Successfully queried the BigQuery API.").
Proof.
  rewrite testDatasource_unfold.
  destruct (getDefaultProject this w) as [[this' o] w1]. cbn [fst snd].
  destruct o as [p|error].
  - cbv zeta.
    destruct (doRequest (core this')
                (baseUrl (core this') +:+ datasets_path (template_text p))
                default_maxRetries w1) as [[response|error] w2] eqn:Hsent;
      cbn [fst snd].
    + destruct (response_status_is_200 response) eqn:Hok; cbn [status message].
      * split; [|reflexivity]. split; [|reflexivity].
        intros _. exists p, response. rewrite Hsent. repeat split; auto.
      * split; [|discriminate]. split; [discriminate|].
        intros (p' & response' & Hp & Hsame & Hok').
        injection Hp as <-. rewrite Hsent in Hsame. cbn [fst] in Hsame.
        injection Hsame as <-. congruence.
    + split; [|discriminate]. split; [discriminate|].
      intros (p' & response' & Hp & Hsame & _).
      injection Hp as <-. rewrite Hsent in Hsame. discriminate Hsame.
  - split; [|discriminate]. split; [discriminate|].
    intros (p' & response' & Habs & _). discriminate Habs.
Qed.

(** X17.  When [getDefaultProject] rejects, it rejects with a string, and
    [testDatasource] reports an error whose message is that very string,
    which starts with [BigQuery: ]; the rejection is written to the console
    once, nothing else is added to the trace, so the datasets are not
    requested, and the datasource is as it was. *)
Theorem testDatasource_project_failure this w (e : Rejection ErrorValue) :
  (getDefaultProject this w).1.2 = Rejected e →
  ∃ text rest,
    e = Failure (ErrText text)
    ∧ text = "BigQuery: " +:+ rest
    ∧ rest ≠ ""
    ∧ (testDatasource this w).1.2 = {| status := "error"; message := text |}
    ∧ (testDatasource this w).2
      = (getDefaultProject this w).2 ++ [EvConsoleLog e]
    ∧ (testDatasource this w).1.1 = this.
Proof.
  intros Hrejected. rewrite testDatasource_unfold, Hrejected.
  destruct (getDefaultProject_cases this w)
    as [Hcase|[(p' & Hcase)|(error & Hcase)]];
    rewrite Hcase in Hrejected |- *; cbn [fst snd] in Hrejected |- *;
    try discriminate Hrejected.
  injection Hrejected as <-.
  destruct (formatBigqueryError_shape error) as (rest & Hrest & Hshape).
  exists (formatBigqueryError error), rest.
  split; [reflexivity|]. split; [exact Hshape|]. split; [exact Hrest|].
  repeat split.
Qed.

(** X18.  When the request for the datasets fails at both attempts with an
    error that is not a string, [testDatasource] reports an error whose
    message starts with [BigQuery: ], and that error is written to the
    console twice: once by [doRequest] and once by [testDatasource]. *)
Theorem testDatasource_request_failure this w (p : option string)
    (e : Rejection ErrorValue) :
  (getDefaultProject this w).1.2 = Resolved p →
  (doRequest (core (getDefaultProject this w).1.1)
     (baseUrl (core (getDefaultProject this w).1.1)
      +:+ datasets_path (template_text p))
     default_maxRetries (getDefaultProject this w).2).1 = Rejected e →
  (∀ text, e ≠ Failure (ErrText text)) →
  status (testDatasource this w).1.2 = "error"
  ∧ (∃ rest, rest ≠ ""
       ∧ message (testDatasource this w).1.2 = "BigQuery: " +:+ rest)
  ∧ console_logs (testDatasource this w).2
    = console_logs (getDefaultProject this w).2 ++ [e; e].
Proof.
  intros Hproject Hsent Hobject.
  rewrite testDatasource_unfold, Hproject. cbv zeta. rewrite Hsent.
  cbn [fst snd]. split; [reflexivity|]. split.
  - unfold testDatasource_catch, bind, emit, ret. cbn [fst snd message].
    assert (∃ tail,
              "BigQuery: " +:+ or_else (statusText_of e) defaultErrorMessage
              = "BigQuery: " +:+ tail ∧ tail ≠ "") as (tail & Htail & Hne).
    { eexists. split; [reflexivity|].
      apply or_else_nonempty. discriminate. }
    destruct e as [m|[text|st detail]].
    + exists tail. split; [exact Hne | exact Htail].
    + exfalso. exact (Hobject text eq_refl).
    + destruct (detail_of (Failure (ErrObject st detail)))
        as [[text|[code|] m]|].
      * exists tail. split; [exact Hne | exact Htail].
      * exists (or_else (statusText_of (Failure (ErrObject st detail)))
                  defaultErrorMessage +:+ ": " +:+ code +:+ ". " +:+ m).
        split; [|apply string_app_assoc].
        apply string_app_nonempty_r. discriminate.
      * exists tail. split; [exact Hne | exact Htail].
      * exists tail. split; [exact Hne | exact Htail].
  - destruct (doRequest_attempts (core (getDefaultProject this w).1.1)
                (baseUrl (core (getDefaultProject this w).1.1)
                 +:+ datasets_path (template_text p))
                default_maxRetries (getDefaultProject this w).2)
      as (k & _ & Htrace & _).
    rewrite Htrace, Hsent, !console_logs_app, console_logs_requests.
    rewrite app_nil_r, <- app_assoc. reflexivity.
Qed.

End ConnectionProperties.

(** ** Concrete runs of the further properties *)

Lemma interpolateVariable_flags_only_for_strings_witness :
  interpolateVariable (Quoting0 := spec_Quoting) (VArray [VNumber 1%Z]) var_v
  = interpolateVariable (Quoting0 := spec_Quoting) (VArray [VNumber 1%Z]) var_abc.
Proof.
  apply (interpolateVariable_flags_only_for_strings
           (Quoting0 := spec_Quoting) (VArray [VNumber 1%Z]) var_v var_abc).
  discriminate.
Defined.

Lemma interpolateVariable_singleton_list_witness :
  interpolateVariable (Quoting0 := spec_Quoting) (VArray [VString "a"]) var_abc
  = interpolateVariable (Quoting0 := spec_Quoting) (VString "a") var_v
  ∧ interpolateVariable (Quoting0 := spec_Quoting) (VArray [VString "a"]) var_abc
    = VString (quoteLiteral (Quoting := spec_Quoting) (VString "a")).
Proof.
  apply (interpolateVariable_singleton_list
           (Quoting0 := spec_Quoting) "a" var_v var_abc).
  reflexivity.
Defined.

Lemma interpolateVariable_list_append_witness :
  ∃ s1 s2,
    interpolateVariable (Quoting0 := spec_Quoting)
      (VArray [VNumber 1%Z]) var_v = VString s1
    ∧ interpolateVariable (Quoting0 := spec_Quoting)
        (VArray [VString "b"]) var_v = VString s2
    ∧ interpolateVariable (Quoting0 := spec_Quoting)
        (VArray ([VNumber 1%Z] ++ [VString "b"])) var_v
      = VString (s1 +:+ "," +:+ s2).
Proof.
  apply (proj2 (interpolateVariable_list_append
                  (Quoting0 := spec_Quoting)
                  [VNumber 1%Z] [VString "b"] var_v)); discriminate.
Defined.

Lemma query_expansion_failure_witness :
  (query (Quoting0 := spec_Quoting) (BigQueryQuery0 := failing_BigQueryQuery)
     (ResponseParser0 := sample_ResponseParser)
     (Host0 := scripted_Host [Resolved "rows"])
     sample_datasource (sample_options [target_A]) []).1.2
  = Rejected (Message "MacroSyntaxError")
  ∧ requests
      (query (Quoting0 := spec_Quoting) (BigQueryQuery0 := failing_BigQueryQuery)
         (ResponseParser0 := sample_ResponseParser)
         (Host0 := scripted_Host [Resolved "rows"])
         sample_datasource (sample_options [target_A]) []).2
    = requests (QM := SampleModel) (Err := string) [].
Proof.
  apply (query_expansion_failure
           (Quoting0 := spec_Quoting) (BigQueryQuery0 := failing_BigQueryQuery)
           (ResponseParser0 := sample_ResponseParser)
           (Host0 := scripted_Host [Resolved "rows"])
           (sample_options [target_A]) sample_datasource target_A []
           (Message "MacroSyntaxError")); reflexivity.
Defined.

Lemma annotationQuery_single_request_witness :
  (run_annotationQuery [Rejected (Failure "503"); Resolved "rows"]
     (mkAnnotationOptions (mkAnnotationDef "deploys" (Some "SELECT 1"))
        ∅ 0%Z 1%Z)).2
  = [] ++ [EvRequest
             (annotation_request (Quoting0 := spec_Quoting)
                (Host0 := scripted_Host
                            [Rejected (Failure "503"); Resolved "rows"])
                sample_datasource
                (mkAnnotationOptions
                   (mkAnnotationDef "deploys" (Some "SELECT 1")) ∅ 0%Z 1%Z)
                "SELECT 1")]
  ∧ (run_annotationQuery [Rejected (Failure "503"); Resolved "rows"]
       (mkAnnotationOptions (mkAnnotationDef "deploys" (Some "SELECT 1"))
          ∅ 0%Z 1%Z)).1
    = Rejected (Failure "503").
Proof.
  apply (annotationQuery_single_request
           (Quoting0 := spec_Quoting)
           (ResponseParser0 := sample_ResponseParser)
           (Host0 := scripted_Host [Rejected (Failure "503"); Resolved "rows"])
           sample_datasource
           (mkAnnotationOptions (mkAnnotationDef "deploys" (Some "SELECT 1"))
              ∅ 0%Z 1%Z)
           "SELECT 1" []); [reflexivity | discriminate].
Defined.

Lemma metricFindQuery_refId_witness :
  p_refId
    (metricFind_payload (Quoting0 := spec_Quoting)
       (Host0 := scripted_Host [Resolved "rows"])
       sample_datasource "SELECT region FROM t"
       (Some (mkMetricFindOptions (Some (mkMetricFindVariable (Some "region"))))))
  = "region"
  ∧ p_refId
      (metricFind_payload (Quoting0 := spec_Quoting)
         (Host0 := scripted_Host [Resolved "rows"])
         sample_datasource "SELECT region FROM t"
         (Some (mkMetricFindOptions (Some (mkMetricFindVariable (Some ""))))))
    = "tempvar".
Proof.
  split.
  - apply (proj1 (metricFindQuery_refId
                    (QM := SampleModel) (Quoting0 := spec_Quoting)
                    (Host0 := scripted_Host [Resolved "rows"])
                    (MetricFindParser0 := sample_MetricFindParser)
                    (TimeSrv0 := sample_TimeSrv)
                    sample_datasource "SELECT region FROM t"
                    (Some (mkMetricFindOptions
                             (Some (mkMetricFindVariable (Some "region")))))
                    []) "region"); [reflexivity | discriminate].
  - apply (proj1 (proj2 (metricFindQuery_refId
                    (QM := SampleModel) (Quoting0 := spec_Quoting)
                    (Host0 := scripted_Host [Resolved "rows"])
                    (MetricFindParser0 := sample_MetricFindParser)
                    (TimeSrv0 := sample_TimeSrv)
                    sample_datasource "SELECT region FROM t"
                    (Some (mkMetricFindOptions
                             (Some (mkMetricFindVariable (Some "")))))
                    []))).
    intros n [= <-]. reflexivity.
Defined.

Lemma constructor_defaults_witness :
  ∃ this : BigQueryDatasource Z SampleModel,
    constructor (mkSampleModel target_A ∅ false)
      (mkInstanceSettings "BigQuery" 7%Z "http://host"
         (Some (mkJsonData None (Some "gce") (Some ""))))
    = Some this
    ∧ interval this = "1m"
    ∧ authenticationType this = "gce"
    ∧ bq_projectName this = Some "".
Proof.
  destruct (proj2 (constructor_defaults (mkSampleModel target_A ∅ false)
                     (mkInstanceSettings "BigQuery" 7%Z "http://host"
                        (Some (mkJsonData None (Some "gce") (Some "")))))
              (mkJsonData None (Some "gce") (Some "")) eq_refl)
    as (this & Hbuilt & _ & _ & _ & _ & _ & _ & _ & Hinterval & Hauth & _
        & Hproject & _).
  exists this. split; [exact Hbuilt|].
  split; [apply Hinterval; left; reflexivity|].
  split; [apply (Hauth "gce"); [reflexivity | discriminate]|].
  apply (Hproject ""). reflexivity.
Defined.

Lemma formatBigqueryError_prefixed_witness :
  formatBigqueryError (ErrorJson0 := no_ErrorJson) quota
  = "BigQuery: Bad: quota"
  ∧ formatBigqueryError (ErrorJson0 := no_ErrorJson) (Failure type_error)
    = "BigQuery: Cannot connect to BigQuery API".
Proof.
  split.
  - apply (proj1 (proj2 (proj2 (formatBigqueryError_prefixed
                                  (ErrorJson0 := no_ErrorJson) quota))
                    "quota" ltac:(discriminate) eq_refl) "Bad").
    discriminate.
  - apply (proj1 (proj2 (formatBigqueryError_prefixed
                           (ErrorJson0 := no_ErrorJson) (Failure type_error))));
      reflexivity.
Defined.

Lemma getDefaultProject_remembers_witness :
  run_getDefaultProject
    (Resolved (mkSampleResponse true None (Some (Some "p1"))))
    (set_projectName (Some "p1") (sample_connection "jwt" "")) []
  = ((set_projectName (Some "p1") (sample_connection "jwt" ""),
      Resolved (Some "p1")), []).
Proof.
  apply (getDefaultProject_remembers
           (ErrorJson0 := no_ErrorJson) (ResponseShape0 := sample_ResponseShape)
           (ProjectProbe0 :=
              settled_probe
                (Resolved (mkSampleResponse true None (Some (Some "p1")))))
           (sample_connection "jwt" "") _ [] [] "p1");
    [discriminate | discriminate | reflexivity].
Defined.

Lemma getDefaultProject_rejection_witness :
  (∃ rest, rest ≠ ""
     ∧ Failure (ErrText "BigQuery: Bad: quota")
       = Failure (Err := ErrorValue) (ErrText ("BigQuery: " +:+ rest)))
  ∧ (run_getDefaultProject (Rejected quota) (sample_connection "gce" "p") []).1.1
    = sample_connection "gce" "p".
Proof.
  apply (getDefaultProject_rejection
           (ErrorJson0 := no_ErrorJson) (ResponseShape0 := sample_ResponseShape)
           (ProjectProbe0 := settled_probe (Rejected quota))
           (sample_connection "gce" "p") []
           (Failure (ErrText "BigQuery: Bad: quota"))).
  reflexivity.
Defined.

Lemma testDatasource_success_witness :
  status (run_testDatasource (Rejected quota)
            [Rejected forbidden; Resolved (mkSampleResponse true None None)]
            (sample_connection "jwt" "p") []).1.2 = "success".
Proof.
  apply (proj2 (proj1 (testDatasource_success
                  (Host0 := scripted_backend
                              [Rejected forbidden;
                               Resolved (mkSampleResponse true None None)])
                  (ErrorJson0 := no_ErrorJson)
                  (ResponseShape0 := sample_ResponseShape)
                  (ProjectProbe0 := settled_probe (Rejected quota))
                  (sample_connection "jwt" "p") []))).
  exists (Some "p"), (mkSampleResponse true None None). repeat split.
Defined.

Lemma testDatasource_project_failure_witness :
  ∃ text rest,
    Failure (ErrText "BigQuery: Bad: quota")
    = Failure (Err := ErrorValue) (ErrText text)
    ∧ text = "BigQuery: " +:+ rest
    ∧ rest ≠ ""
    ∧ (run_testDatasource (Rejected quota) [] (sample_connection "gce" "p") []).1.2
      = {| status := "error"; message := text |}
    ∧ (run_testDatasource (Rejected quota) [] (sample_connection "gce" "p") []).2
      = (run_getDefaultProject (Rejected quota) (sample_connection "gce" "p") []).2
        ++ [EvConsoleLog (Failure (ErrText "BigQuery: Bad: quota"))]
    ∧ (run_testDatasource (Rejected quota) [] (sample_connection "gce" "p") []).1.1
      = sample_connection "gce" "p".
Proof.
  apply (testDatasource_project_failure
           (Host0 := scripted_backend [])
           (ErrorJson0 := no_ErrorJson) (ResponseShape0 := sample_ResponseShape)
           (ProjectProbe0 := settled_probe (Rejected quota))
           (sample_connection "gce" "p") []
           (Failure (ErrText "BigQuery: Bad: quota"))).
  reflexivity.
Defined.

Lemma testDatasource_request_failure_witness :
  status (run_testDatasource
            (Resolved (mkSampleResponse true None (Some (Some "p1"))))
            [Rejected forbidden; Rejected forbidden]
            (sample_connection "gce" "") []).1.2 = "error"
  ∧ (∃ rest, rest ≠ ""
       ∧ message (run_testDatasource
                    (Resolved (mkSampleResponse true None (Some (Some "p1"))))
                    [Rejected forbidden; Rejected forbidden]
                    (sample_connection "gce" "") []).1.2
         = "BigQuery: " +:+ rest)
  ∧ console_logs (run_testDatasource
                    (Resolved (mkSampleResponse true None (Some (Some "p1"))))
                    [Rejected forbidden; Rejected forbidden]
                    (sample_connection "gce" "") []).2
    = console_logs
        (run_getDefaultProject
           (Resolved (mkSampleResponse true None (Some (Some "p1"))))
           (sample_connection "gce" "") []).2
      ++ [forbidden; forbidden].
Proof.
  apply (testDatasource_request_failure
           (Host0 := scripted_backend [Rejected forbidden; Rejected forbidden])
           (ErrorJson0 := no_ErrorJson) (ResponseShape0 := sample_ResponseShape)
           (ProjectProbe0 :=
              settled_probe
                (Resolved (mkSampleResponse true None (Some (Some "p1")))))
           (sample_connection "gce" "") [] (Some "p1") forbidden);
    [reflexivity | reflexivity | intros text; discriminate].
Defined.

Lemma query_never_retries_witness :
  (run_query [Rejected (Failure "503"); Rejected (Failure "504")]
     (sample_options [target_A])).1.2
  = Rejected (Failure "504").
Proof.
  destruct (query_never_retries
              (Quoting0 := spec_Quoting) (BigQueryQuery0 := sample_BigQueryQuery)
              (ResponseParser0 := sample_ResponseParser)
              (Host0 := scripted_Host
                          [Rejected (Failure "503"); Rejected (Failure "504")])
              (sample_options [target_A]) sample_datasource target_A []
              "SELECT a FROM t" eq_refl eq_refl)
    as (_ & _ & Hrejected & _).
  apply Hrejected. reflexivity.
Defined.
